(** * Causal attention notebook: the committed [attention_forward] and its
      integration wrapper.

    The development embeds the Python cells of [transformer.ipynb] that
    define [attention_forward], [rotate_half], [apply_rotary_pos_emb],
    [repeat_kv] and [custom_attention_forward].  Python exceptions are an
    error monad, the notebook's module namespace is a finite map from names
    to objects, and the tensor library is an interface with one executable
    instance. *)

From stdpp Require Import base option list strings gmap.
From Stdlib Require Import ZArith Lia.

Local Open Scope string_scope.
Local Open Scope Z_scope.

(** ** Python exceptions and the error monad *)

(** The exception classes the modelled cells can raise.  A bare
    [assert cond] raises [AssertionError] with no argument, hence the
    optional message. *)
Inductive Exception : Type :=
  | ValueError (msg : string)
  | AssertionError (msg : option string)
  | NameError (name : string)
  | AttributeError (attr : string)
  | IndexError (msg : string)
  | RuntimeError (msg : string).

Inductive Result (A : Type) : Type :=
  | Ok (a : A)
  | Raise (e : Exception).
Arguments Ok {A} a.
Arguments Raise {A} e.

#[global] Instance Exception_eq_dec : EqDecision Exception.
Proof. solve_decision. Defined.

#[global] Instance Result_ret : MRet Result := fun _ a => Ok a.
#[global] Instance Result_bind : MBind Result := fun _ _ f m =>
  match m with
  | Ok a => f a
  | Raise e => Raise e
  end.

(** [assert cond] without a message. *)
Definition py_assert (cond : bool) : Result unit :=
  if cond then Ok tt else Raise (AssertionError None).

(** [a, b, c, d = xs]: tuple unpacking into exactly four names. *)
Definition unpack4 (xs : list Z) : Result (Z * Z * Z * Z) :=
  match xs with
  | [a; b; c; d] => Ok (a, b, c, d)
  | _ =>
      if (Z.of_nat (length xs) <? 4)
      then Raise (ValueError "not enough values to unpack (expected 4)")
      else Raise (ValueError "too many values to unpack (expected 4)")
  end.

(** [a, b, c = xs]. *)
Definition unpack3 (xs : list Z) : Result (Z * Z * Z) :=
  match xs with
  | [a; b; c] => Ok (a, b, c)
  | _ =>
      if (Z.of_nat (length xs) <? 3)
      then Raise (ValueError "not enough values to unpack (expected 3)")
      else Raise (ValueError "too many values to unpack (expected 3)")
  end.

(** [xs[i]] for a non-negative literal index [i]. *)
Definition py_index (xs : list Z) (i : nat) : Result Z :=
  match xs !! i with
  | Some x => Ok x
  | None => Raise (IndexError "tuple index out of range")
  end.

(** [xs[-1]] *)
Definition py_last (xs : list Z) : Result Z :=
  match last xs with
  | Some x => Ok x
  | None => Raise (IndexError "tuple index out of range")
  end.

(** [xs == ys] on tuples of ints ([torch.Size] is a tuple subclass). *)
Definition size_eqb (xs ys : list Z) : bool := bool_decide (xs = ys).

(** ** The tensor library, as far as the cells use it *)

Class Torch : Type := {
  Tensor : Type;
  (** [torch.nn.Linear] and, more generally, a callable module. *)
  Linear : Type;
  (** [t.shape], [t.size()] *)
  shape : Tensor -> list Z;
  (** [m(t)] for a module [m] *)
  call_module : Linear -> Tensor -> Result Tensor;
  (** [t.view(d0, d1, ...)], where a dimension may be [-1] *)
  view : Tensor -> list Z -> Result Tensor;
  (** [t.reshape(d0, d1, ...)] *)
  reshape : Tensor -> list Z -> Result Tensor;
  (** [t.expand(d0, d1, ...)] *)
  expand : Tensor -> list Z -> Result Tensor;
  (** [t.transpose(d0, d1)] *)
  transpose : Tensor -> Z -> Z -> Result Tensor;
  (** [t.unsqueeze(d)] *)
  unsqueeze : Tensor -> Z -> Result Tensor;
  (** [a * b] and [a + b], with broadcasting *)
  mul : Tensor -> Tensor -> Result Tensor;
  add : Tensor -> Tensor -> Result Tensor;
  (** [-t] *)
  neg : Tensor -> Tensor;
  (** [t[..., : n]] and [t[..., n :]] *)
  slice_last_to : Tensor -> Z -> Result Tensor;
  slice_last_from : Tensor -> Z -> Result Tensor;
  (** [torch.cat((a, b), dim=-1)] *)
  cat_last : Tensor -> Tensor -> Result Tensor;
}.

(** The dictionary [{"sin": sin, "cos": cos, "cache_position": cache_position}]
    handed to the key-value cache. *)
Record CacheKwargs `{Torch} : Type := mkCacheKwargs {
  kw_sin : Tensor;
  kw_cos : Tensor;
  kw_cache_position : option Tensor;
}.

(** A key-value cache class: objects with an [update] method.  The method
    mutates the object; the new state is returned next to the method's
    result.  (When a later statement raises, the caller keeps the mutated
    object; an outcome records the exception only.) *)
Class KVCache `{Torch} : Type := {
  Cache : Type;
  cache_update :
    Cache -> Tensor -> Tensor -> Z -> CacheKwargs ->
    Result (Tensor * Tensor * Cache);
}.

(** ** The notebook's module namespace *)

Section Notebook.
Context {torch : Torch}.

(** What a global name can be bound to: a tensor, or any other object (one
    without a [shape] attribute: modules, functions, the model, ...).
    Objects that are no tensors and yet carry a [shape] attribute, such as
    the arrays of other libraries, are not part of this model. *)
Inductive PyObj : Type :=
  | PyTensor (t : Tensor)
  | PyOther (type_name : string).

(** [LOAD_GLOBAL name]: the name is looked up in the module namespace; no
    builtin is called [v], so a miss is a [NameError]. *)
Definition load_global (globals : gmap string PyObj) (name : string)
  : Result PyObj :=
  match globals !! name with
  | Some o => Ok o
  | None => Raise (NameError name)
  end.

(** [o.shape] *)
Definition getattr_shape (o : PyObj) : Result (list Z) :=
  match o with
  | PyTensor t => Ok (shape t)
  | PyOther _ => Raise (AttributeError "shape")
  end.

(** [return o] for a function annotated [-> torch.Tensor]; the object has
    already answered [.shape]. *)
Definition as_tensor (o : PyObj) : Result Tensor :=
  match o with
  | PyTensor t => Ok t
  | PyOther _ => Raise (AttributeError "shape")
  end.

(** *** [attention_forward]

    The body between [# TODO {] and [# TODO }] is empty.  The function
    therefore never assigns [v], which makes [v] a global name in the two
    statements that follow the markers. *)
Definition attention_forward (globals : gmap string PyObj)
    (query key value : Tensor) (output_projection : Linear) : Result Tensor :=
  '(batch, q_seq_len, num_heads, head_dim) ← unpack4 (shape query);
  '(batch, k_seq_len, num_heads, head_dim) ← unpack4 (shape key);
  py_assert (size_eqb (shape value) (shape key));;
  py_assert (q_seq_len <=? k_seq_len);;
  q0 ← py_index (shape query) 0;
  k0 ← py_index (shape key) 0;
  py_assert (q0 =? k0);;
  py_assert (size_eqb (drop 2 (shape query)) (drop 2 (shape key)));;
  (* TODO { *)
  (* TODO } *)
  v ← load_global globals "v";
  v_shape ← getattr_shape v;
  py_assert (size_eqb v_shape [batch; q_seq_len; num_heads * head_dim]);;
  as_tensor v.


(** The contract on the three inputs: four-dimensional query and key,
    [q_len <= k_len], [key.shape == value.shape],
    [query.shape[0] == key.shape[0]] and
    [query.shape[2:] == key.shape[2:]]. *)
Definition precondition (query key value : Tensor) : Prop :=
  exists b q_len h d b' k_len h' d',
    shape query = [b; q_len; h; d] /\ shape key = [b'; k_len; h'; d'] /\
    q_len <= k_len /\
    shape key = shape value /\
    b = b' /\
    [h; d] = [h'; d'].

(** *** Helpers copied into the notebook from the model's source *)

(** Rotates half the hidden dims of the input. *)
Definition rotate_half (x : Tensor) : Result Tensor :=
  n ← py_last (shape x);
  x1 ← slice_last_to x (n / 2);
  n' ← py_last (shape x);
  x2 ← slice_last_from x (n' / 2);
  cat_last (neg x2) x1.

Definition apply_rotary_pos_emb (q k cos sin : Tensor)
    (position_ids : option Tensor) (unsqueeze_dim : Z)
  : Result (Tensor * Tensor) :=
  cos ← unsqueeze cos unsqueeze_dim;
  sin ← unsqueeze sin unsqueeze_dim;
  q_cos ← mul q cos;
  q_rot ← rotate_half q;
  q_sin ← mul q_rot sin;
  q_embed ← add q_cos q_sin;
  k_cos ← mul k cos;
  k_rot ← rotate_half k;
  k_sin ← mul k_rot sin;
  k_embed ← add k_cos k_sin;
  Ok (q_embed, k_embed).

Definition repeat_kv (hidden_states : Tensor) (n_rep : Z) : Result Tensor :=
  '(batch, num_key_value_heads, slen, head_dim) ← unpack4 (shape hidden_states);
  if n_rep =? 1 then Ok hidden_states
  else
    (* [hidden_states[:, :, None, :, :]] on a four-dimensional tensor *)
    hidden_states ← unsqueeze hidden_states 2;
    hidden_states ←
      expand hidden_states [batch; num_key_value_heads; n_rep; slen; head_dim];
    reshape hidden_states [batch; num_key_value_heads * n_rep; slen; head_dim].

(** *** The attention layer object the wrapper is bound to *)

Record LlamaAttention : Type := mkLlamaAttention {
  q_proj : Linear;
  k_proj : Linear;
  v_proj : Linear;
  o_proj : Linear;
  head_dim : Z;
  num_key_value_groups : Z;
  layer_idx : Z;
  (** [self.rotary_emb(x, position_ids)] returns [(cos, sin)]. *)
  rotary_emb : Tensor -> option Tensor -> Result (Tensor * Tensor);
}.

Context {kvcache : KVCache}.

(** *** [custom_attention_forward] *)
Definition custom_attention_forward (globals : gmap string PyObj)
    (self : LlamaAttention)
    (hidden_states : Tensor)
    (attention_mask : option Tensor)
    (position_ids : option Tensor)
    (past_key_value : option Cache)
    (output_attentions : bool)
    (use_cache : bool)
    (cache_position : option Tensor)
    (position_embeddings : option (Tensor * Tensor))
    (kwargs : gmap string PyObj)
  : Result (Tensor * option Tensor * option Cache) :=
  '(bsz, q_len, _) ← unpack3 (shape hidden_states);

  query_states ← call_module (q_proj self) hidden_states;
  key_states ← call_module (k_proj self) hidden_states;
  value_states ← call_module (v_proj self) hidden_states;

  query_states ← view query_states [bsz; q_len; -1; head_dim self];
  query_states ← transpose query_states 1 2;
  key_states ← view key_states [bsz; q_len; -1; head_dim self];
  key_states ← transpose key_states 1 2;
  value_states ← view value_states [bsz; q_len; -1; head_dim self];
  value_states ← transpose value_states 1 2;

  '(cos, sin) ←
    match position_embeddings with
    | None => rotary_emb self value_states position_ids
    | Some cos_sin => Ok cos_sin
    end;
  '(query_states, key_states) ←
    apply_rotary_pos_emb query_states key_states cos sin None 1;

  '(key_states, value_states, past_key_value) ←
    match past_key_value with
    | Some cache =>
        let cache_kwargs := mkCacheKwargs _ sin cos cache_position in
        '(key_states, value_states, cache) ←
          cache_update cache key_states value_states (layer_idx self)
                       cache_kwargs;
        Ok (key_states, value_states, Some cache)
    | None => Ok (key_states, value_states, None)
    end;

  key_states ← repeat_kv key_states (num_key_value_groups self);
  value_states ← repeat_kv value_states (num_key_value_groups self);

  query_states ← transpose query_states 1 2;
  key_states ← transpose key_states 1 2;
  value_states ← transpose value_states 1 2;

  attn_output ←
    attention_forward globals query_states key_states value_states
                      (o_proj self);

  Ok (attn_output, None, past_key_value).

End Notebook.

(** ** An executable instance of the tensor interface

    Tensors are stored contiguously in row-major order; every operation
    materialises its result.  The entries are integers: on small integers
    the floating-point sum, product and negation of the working precision
    are exact, so the instance computes what the library computes on such
    inputs. *)

Module ZTorch.

Record ZTensor : Type := mkT { zshape : list Z; zdata : list Z }.

(** A bias-free [torch.nn.Linear]: [weight] has shape
    [(out_features, in_features)]. *)
Record ZLinear : Type := mkLinear { weight : ZTensor }.

#[global] Instance ZTensor_eq_dec : EqDecision ZTensor.
Proof. solve_decision. Defined.

Definition numel (s : list Z) : Z := foldr Z.mul 1 s.

(** All index tuples of a shape, in row-major order. *)
Fixpoint indices (s : list Z) : list (list Z) :=
  match s with
  | [] => [[]]
  | d :: s' => i ← seqZ 0 d; (cons i) <$> indices s'
  end.

(** Row-major offset of an index tuple. *)
Definition offset (s idx : list Z) : Z :=
  fold_left (fun acc p => acc * p.1 + p.2) (zip s idx) 0.

Definition get (t : ZTensor) (idx : list Z) : Z :=
  default 0 (zdata t !! Z.to_nat (offset (zshape t) idx)).

Definition build (s : list Z) (f : list Z -> Z) : ZTensor :=
  mkT s (f <$> indices s).

Definition rank (t : ZTensor) : Z := Z.of_nat (length (zshape t)).

Definition last_dim (s : list Z) : Z := default 0 (last s).
Definition init (s : list Z) : list Z := take (length s - 1)%nat s.
Definition with_last (idx : list Z) (j : Z) : list Z := init idx ++ [j].

Definition swap (i j : nat) (l : list Z) : list Z :=
  <[i := default 0 (l !! j)]> (<[j := default 0 (l !! i)]> l).

(** A dimension argument, negative values counting from the end. *)
Definition wrap_dim (r d : Z) : Result nat :=
  let d' := if d <? 0 then d + r else d in
  if (0 <=? d') && (d' <? r) then Ok (Z.to_nat d')
  else Raise (IndexError "Dimension out of range").

Definition z_transpose (t : ZTensor) (d0 d1 : Z) : Result ZTensor :=
  i ← wrap_dim (rank t) d0;
  j ← wrap_dim (rank t) d1;
  Ok (build (swap i j (zshape t)) (fun idx => get t (swap i j idx))).

Definition z_unsqueeze (t : ZTensor) (d : Z) : Result ZTensor :=
  i ← wrap_dim (rank t + 1) d;
  Ok (mkT (take i (zshape t) ++ [1] ++ drop i (zshape t)) (zdata t)).

(** Resolve the sizes passed to [view] or [reshape] against the number of
    elements at hand. *)
Definition infer_size (dims : list Z) (n : Z) : Result (list Z) :=
  if bool_decide (Exists (fun d => d < -1) dims)
  then Raise (RuntimeError "invalid shape dimension")
  else
    let known := numel (filter (fun d => d <> -1) dims) in
    match length (filter (fun d => d = -1) dims) with
    | O =>
        if known =? n then Ok dims
        else Raise (RuntimeError "shape is invalid for input size")
    | S O =>
        if (known =? 0) || negb (n mod known =? 0)
        then Raise (RuntimeError "shape is invalid for input size")
        else Ok ((fun d => if d =? -1 then n / known else d) <$> dims)
    | _ => Raise (RuntimeError "only one dimension can be inferred")
    end.

Definition z_view (t : ZTensor) (dims : list Z) : Result ZTensor :=
  s ← infer_size dims (numel (zshape t));
  Ok (mkT s (zdata t)).

(** The index an operand of shape [s] is read at, for an index [idx] of the
    broadcast result: leading dimensions are dropped and dimensions of
    size one are read at 0. *)
Definition bidx (s idx : list Z) : list Z :=
  zip_with (fun d i => if d =? 1 then 0 else i) s
           (drop (length idx - length s) idx).

Definition pad_left (n : nat) (s : list Z) : list Z :=
  replicate (n - length s) 1 ++ s.

Fixpoint broadcast_dims (a b : list Z) : Result (list Z) :=
  match a, b with
  | x :: a', y :: b' =>
      rest ← broadcast_dims a' b';
      if x =? y then Ok (x :: rest)
      else if x =? 1 then Ok (y :: rest)
      else if y =? 1 then Ok (x :: rest)
      else Raise (RuntimeError "tensor sizes must match")
  | _, _ => Ok []
  end.

Definition broadcast_shapes (a b : list Z) : Result (list Z) :=
  let n := max (length a) (length b) in
  broadcast_dims (pad_left n a) (pad_left n b).

Definition pointwise (f : Z -> Z -> Z) (a b : ZTensor) : Result ZTensor :=
  s ← broadcast_shapes (zshape a) (zshape b);
  Ok (build s (fun idx =>
        f (get a (bidx (zshape a) idx)) (get b (bidx (zshape b) idx)))).

Fixpoint expand_dims (s dims : list Z) : Result (list Z) :=
  match s, dims with
  | x :: s', d :: dims' =>
      rest ← expand_dims s' dims';
      if d =? -1 then Ok (x :: rest)
      else if (x =? d) || (x =? 1) && (0 <=? d) then Ok (d :: rest)
      else Raise (RuntimeError "expanded size must match existing size")
  | _, _ => Ok []
  end.

Definition z_expand (t : ZTensor) (dims : list Z) : Result ZTensor :=
  if (length dims <? length (zshape t))%nat
  then Raise (RuntimeError "expand: too few sizes")
  else
    s ← expand_dims (pad_left (length dims) (zshape t)) dims;
    Ok (build s (fun idx => get t (bidx (zshape t) idx))).

(** Bounds of a Python slice over a dimension of size [len]. *)
Definition clamp (len n : Z) : Z :=
  if n <? 0 then Z.max (n + len) 0 else Z.min n len.

Definition z_slice_last_to (t : ZTensor) (n : Z) : Result ZTensor :=
  match zshape t with
  | [] => Raise (IndexError "too many indices for tensor of dimension 0")
  | s => Ok (build (with_last s (clamp (last_dim s) n)) (get t))
  end.

Definition z_slice_last_from (t : ZTensor) (n : Z) : Result ZTensor :=
  match zshape t with
  | [] => Raise (IndexError "too many indices for tensor of dimension 0")
  | s =>
      let start := clamp (last_dim s) n in
      Ok (build (with_last s (last_dim s - start))
            (fun idx => get t (with_last idx (last_dim idx + start))))
  end.

Definition z_cat_last (a b : ZTensor) : Result ZTensor :=
  match zshape a, zshape b with
  | [], _ | _, [] =>
      Raise (RuntimeError "zero-dimensional tensor cannot be concatenated")
  | sa, sb =>
      if bool_decide (init sa = init sb) then
        Ok (build (with_last sa (last_dim sa + last_dim sb))
              (fun idx =>
                 let j := last_dim idx in
                 if j <? last_dim sa then get a idx
                 else get b (with_last idx (j - last_dim sa))))
      else Raise (RuntimeError "sizes of tensors must match except in dimension")
  end.

Definition z_linear (m : ZLinear) (t : ZTensor) : Result ZTensor :=
  match zshape (weight m), zshape t with
  | [out_features; in_features], _ :: _ =>
      if last_dim (zshape t) =? in_features then
        Ok (build (with_last (zshape t) out_features)
              (fun idx =>
                 foldr Z.add 0
                   ((fun i => get t (with_last idx i)
                              * get (weight m) [last_dim idx; i])
                      <$> seqZ 0 in_features)))
      else Raise (RuntimeError "mat1 and mat2 shapes cannot be multiplied")
  | _, _ => Raise (RuntimeError "mat1 and mat2 shapes cannot be multiplied")
  end.

#[global] Instance torch : Torch := {|
  Tensor := ZTensor;
  Linear := ZLinear;
  shape := zshape;
  call_module := z_linear;
  view := z_view;
  reshape := z_view;
  expand := z_expand;
  transpose := z_transpose;
  unsqueeze := z_unsqueeze;
  mul := pointwise Z.mul;
  add := pointwise Z.add;
  neg := fun t => mkT (zshape t) (Z.opp <$> zdata t);
  slice_last_to := z_slice_last_to;
  slice_last_from := z_slice_last_from;
  cat_last := z_cat_last;
|}.

End ZTorch.

(** ** The notebook's top-level names *)

(** Every name bound at top level by some cell of the notebook: imports,
    assignments, loop variables and function definitions, cell by cell. *)
Definition notebook_toplevel_names : gset string :=
  list_to_set
    [ (* tokenizer cells *)
      "torch"; "LlamaTokenizer"; "LlamaForCausalLM"; "tqdm";
      "tokenizer"; "text"; "tokens_mask"; "detokenized";
      (* input tokenization, model loading, input encoding *)
      "tokens"; "attention_mask"; "device"; "model"; "p"; "embedded_tokens";
      (* passing through the layers of the model *)
      "hidden_states"; "batch"; "seq_len"; "hidden_size"; "position_ids";
      "causal_mask"; "position_embeddings"; "l"; "next_token";
      (* generation *)
      "output";
      (* the exercise and its integration *)
      "attention_forward"; "Optional"; "Tuple"; "rotate_half";
      "apply_rotary_pos_emb"; "repeat_kv"; "custom_attention_forward";
      (* testing *)
      "partial"; "decoded" ].

(** ** Concrete runs *)

Module Runs.
Import ZTorch.

(** The namespace after the tokenizer cell, the input tokenization cell and
    the two cells that define the exercise have run. *)
Definition notebook_globals : gmap string PyObj :=
  list_to_map
    [ ("torch", PyOther "module");
      ("LlamaTokenizer", PyOther "type");
      ("LlamaForCausalLM", PyOther "type");
      ("tqdm", PyOther "type");
      ("tokenizer", PyOther "LlamaTokenizer");
      ("text", PyOther "list");
      ("tokens_mask", PyOther "BatchEncoding");
      ("detokenized", PyOther "list");
      ("tokens",
        PyTensor (mkT [1; 8] [1; 29500; 29536; 835; 29500; 29574; 419; 29500]));
      ("attention_mask", PyTensor (mkT [1; 8] [1; 1; 1; 1; 1; 1; 1; 1]));
      ("attention_forward", PyOther "function");
      ("Optional", PyOther "typing._SpecialForm");
      ("Tuple", PyOther "typing._TupleType");
      ("rotate_half", PyOther "function");
      ("apply_rotary_pos_emb", PyOther "function");
      ("repeat_kv", PyOther "function");
      ("custom_attention_forward", PyOther "function") ].

(** The identity projection on [n] features. *)
Definition eye (n : Z) : ZLinear :=
  mkLinear (build [n; n] (fun idx =>
    match idx with
    | [i; j] => if i =? j then 1 else 0
    | _ => 0
    end)).

(** batch 1, one position, one head, head_dim 64, all ones: the dot
    product of the query with the key is 64. *)
Definition ones_64 : ZTensor := mkT [1; 1; 1; 64] (replicate 64 1).

(** batch 1, three positions, one head, head_dim 2. *)
Definition scenario : ZTensor := mkT [1; 3; 1; 2] [1; 0; 0; 1; 1; 1].

(** batch 1, two positions, one head, head_dim 2, large magnitude. *)
Definition large : ZTensor := mkT [1; 2; 1; 2] [10000; -10000; 10000; 10000].

(** batch 1, two positions, two heads, head_dim 1. *)
Definition two_heads_q : ZTensor := mkT [1; 2; 2; 1] [1; 2; 3; 4].
Definition two_heads_v : ZTensor := mkT [1; 2; 2; 1] [5; 6; 7; 8].

(** batch 2, three positions, four heads, head_dim 5. *)
Definition zeros_2345 : ZTensor := mkT [2; 3; 4; 5] (replicate 120 0).

(** A projection from 20 features to 7. *)
Definition proj_20_7 : ZLinear := mkLinear (mkT [7; 20] (replicate 140 1)).

(** batch 1, a single position, one head, head_dim 2. *)
Definition single_q : ZTensor := mkT [1; 1; 1; 2] [3; 4].
Definition single_v : ZTensor := mkT [1; 1; 1; 2] [5; 6].

(** Bad shapes: batch 2 against batch 1, and three queries against two
    keys. *)
Definition batch_2 : ZTensor := mkT [2; 1; 1; 2] [1; 2; 3; 4].
Definition batch_1 : ZTensor := mkT [1; 1; 1; 2] [1; 2].
Definition three_queries : ZTensor := mkT [1; 3; 1; 2] [1; 2; 3; 4; 5; 6].
Definition two_keys : ZTensor := mkT [1; 2; 1; 2] [1; 2; 3; 4].
Definition head_dim_3 : ZTensor := mkT [1; 1; 1; 3] [1; 2; 3].

(** A fixed-size key-value cache: one pre-allocated buffer of shape
    [(batch, heads, max_cache_len, head_dim)] per layer.  [update] writes
    the new states at the positions named by [cache_position] (or copies
    them over the whole buffer when it is [None]) and returns the buffers. *)
Record FixedCache : Type := mkFixedCache {
  key_cache : list ZTensor;
  value_cache : list ZTensor;
}.

(** [buf.index_copy_(2, positions, src)] *)
Definition index_copy_2 (buf positions src : ZTensor) : Result ZTensor :=
  let len := default 0 (zshape buf !! 2%nat) in
  if bool_decide (Forall (fun p => 0 <= p < len) (zdata positions)) then
    Ok (build (zshape buf) (fun idx =>
          match idx with
          | [b; h; s; d] =>
              match list_find (fun p => p = s) (zdata positions) with
              | Some (i, _) => get src [b; h; Z.of_nat i; d]
              | None => get buf idx
              end
          | _ => get buf idx
          end))
  else Raise (IndexError "index out of range in index_copy_").

Definition fixed_cache_write (buf src : ZTensor) (positions : option ZTensor)
  : Result ZTensor :=
  match positions with
  | Some pos => index_copy_2 buf pos src
  | None =>
      if bool_decide (zshape buf = zshape src) then Ok src
      else Raise (RuntimeError "copy_: sizes do not match")
  end.

Definition fixed_cache_update (c : FixedCache) (key_states value_states : ZTensor)
    (layer_idx : Z) (cache_kwargs : CacheKwargs)
  : Result (ZTensor * ZTensor * FixedCache) :=
  match key_cache c !! Z.to_nat layer_idx, value_cache c !! Z.to_nat layer_idx with
  | Some k_out, Some v_out =>
      k_out ← fixed_cache_write k_out key_states (kw_cache_position cache_kwargs);
      v_out ← fixed_cache_write v_out value_states (kw_cache_position cache_kwargs);
      Ok (k_out, v_out,
          mkFixedCache (<[Z.to_nat layer_idx := k_out]> (key_cache c))
                       (<[Z.to_nat layer_idx := v_out]> (value_cache c)))
  | _, _ => Raise (IndexError "list index out of range")
  end.

#[global] Instance fixed_kvcache : KVCache := {|
  Cache := FixedCache;
  cache_update := fixed_cache_update;
|}.

(** A layer with one head of dimension 2 and identity projections.  At
    position 0 the rotary embedding is [cos = 1], [sin = 0]. *)
Definition cos_0 : ZTensor := mkT [1; 1; 2] [1; 1].
Definition sin_0 : ZTensor := mkT [1; 1; 2] [0; 0].

Definition layer : LlamaAttention := {|
  q_proj := eye 2;
  k_proj := eye 2;
  v_proj := eye 2;
  o_proj := eye 2;
  head_dim := 2;
  num_key_value_groups := 1;
  layer_idx := 0;
  rotary_emb := fun _ _ => Ok (cos_0, sin_0);
|}.

(** One token, hidden size 2. *)
Definition one_token : ZTensor := mkT [1; 1; 2] [3; 4].

(** A cache with room for two positions in its only layer. *)
Definition empty_cache : FixedCache :=
  mkFixedCache [mkT [1; 1; 2; 2] [0; 0; 0; 0]] [mkT [1; 1; 2; 2] [0; 0; 0; 0]].

Definition position (n : Z) : ZTensor := mkT [1] [n].

(** The namespace once the testing cell has run as well. *)
Definition globals_after_testing : gmap string PyObj :=
  <["decoded" := PyOther "str"]>
    (<["model" := PyOther "LlamaForCausalLM"]>
       (<["partial" := PyOther "type"]> notebook_globals)).

(** A namespace in which, unlike anywhere in the notebook, a tensor has
    been bound to [v]. *)
Definition globals_with_v : gmap string PyObj :=
  <["v" := PyTensor (mkT [1; 1; 2] [0; 0])]> notebook_globals.

End Runs.


(** ** Reading the tensors of the executable instance *)

(** [idx] is an index tuple of a tensor of shape [s]. *)
Definition in_range (s idx : list Z) : Prop :=
  Forall2 (fun d i => 0 <= i < d) s idx.

(** The sizes are non-negative and the buffer holds one entry per index. *)
Definition well_formed (t : ZTorch.ZTensor) : Prop :=
  Forall (fun d => 0 <= d) (ZTorch.zshape t) /\
  Z.of_nat (length (ZTorch.zdata t)) = ZTorch.numel (ZTorch.zshape t).

(** The index tuple stored at row-major offset [k]. *)
Fixpoint unravel (s : list Z) (k : Z) : list Z :=
  match s with
  | [] => []
  | d :: s' => k / ZTorch.numel s' :: unravel s' (k mod ZTorch.numel s')
  end.

(** The expression [(x * cos) + (rotate_half(x) * sin)], which
    [apply_rotary_pos_emb] evaluates once for the query and once for the
    key. *)
Definition rotary_embed `{Torch} (x cos sin : Tensor) : Result Tensor :=
  x_cos ← mul x cos;
  x_rot ← rotate_half x;
  x_sin ← mul x_rot sin;
  add x_cos x_sin.

(** A tensor of rank 0 and a tensor of shape (1, 4). *)
Definition scalar_7 : ZTorch.ZTensor := ZTorch.mkT [] [7].
Definition row_1234 : ZTorch.ZTensor := ZTorch.mkT [1; 4] [1; 2; 3; 4].

(** The executable instance with the element arithmetic left open.  An
    entry is an integer that stands for a value of the working dtype, and
    [fmul], [fadd] and [fneg] are that dtype's product, sum and negation,
    rounding or wrapping as the dtype does; [linear] is the module call.
    Shapes and indexing are those of [ZTorch]. *)
Definition dtype_torch (fmul fadd : Z -> Z -> Z) (fneg : Z -> Z)
    (linear : ZTorch.ZLinear -> ZTorch.ZTensor -> Result ZTorch.ZTensor)
  : Torch := {|
  Tensor := ZTorch.ZTensor;
  Linear := ZTorch.ZLinear;
  shape := ZTorch.zshape;
  call_module := linear;
  view := ZTorch.z_view;
  reshape := ZTorch.z_view;
  expand := ZTorch.z_expand;
  transpose := ZTorch.z_transpose;
  unsqueeze := ZTorch.z_unsqueeze;
  mul := ZTorch.pointwise fmul;
  add := ZTorch.pointwise fadd;
  neg := fun t => ZTorch.mkT (ZTorch.zshape t) (fneg <$> ZTorch.zdata t);
  slice_last_to := ZTorch.z_slice_last_to;
  slice_last_from := ZTorch.z_slice_last_from;
  cat_last := ZTorch.z_cat_last;
|}.

(** An integer rounded to eight significant bits, ties to even: what
    bfloat16 keeps of an integer result. *)
Definition round8 (n : Z) : Z :=
  let a := Z.abs n in
  if a <? 256 then n
  else
    let e := Z.log2 a - 7 in
    let q := a / 2 ^ e in
    let r := a mod 2 ^ e in
    let half := 2 ^ (e - 1) in
    let q' := if r <? half then q
              else if half <? r then q + 1
              else if Z.even q then q else q + 1 in
    Z.sgn n * (q' * 2 ^ e).

Definition round8_mul (a b : Z) : Z := round8 (a * b).
Definition round8_add (a b : Z) : Z := round8 (a + b).

(** Two query heads and one key head at two positions, head_dim 2, with
    rotary tables of shape (1, 2, 2). *)
Definition rope_q : ZTorch.ZTensor :=
  ZTorch.mkT [1; 2; 2; 2] [17; 2; 3; 4; 5; 6; 7; 8].
Definition rope_k : ZTorch.ZTensor := ZTorch.mkT [1; 1; 2; 2] [1; 2; 3; 4].
Definition rope_cos : ZTorch.ZTensor := ZTorch.mkT [1; 2; 2] [17; 1; 0; 1].
Definition rope_sin : ZTorch.ZTensor := ZTorch.mkT [1; 2; 2] [0; 1; 2; 3].

(** * Properties *)

Import Runs.

(** ** The error monad *)

Lemma bind_Ok_inv {A B} (m : Result A) (f : A -> Result B) (b : B) :
  m ≫= f = Ok b -> exists a, m = Ok a /\ f a = Ok b.
Proof. destruct m as [a|e]; cbn; [eauto | discriminate]. Qed.

Lemma py_assert_true (c : bool) : c = true -> py_assert c = Ok tt.
Proof. now intros ->. Qed.

Lemma unpack4_cases (xs : list Z) :
  (exists a b c d, xs = [a; b; c; d] /\ unpack4 xs = Ok (a, b, c, d)) \/
  (length xs <> 4%nat /\ exists m, unpack4 xs = Raise (ValueError m)).
Proof.
  destruct xs as [|a [|b [|c [|d [|e xs]]]]];
    try (right; split; [cbn; lia | cbn; eauto]; fail).
  - left. now exists a, b, c, d.
  - right. split; [cbn; lia|]. unfold unpack4.
    destruct (Z.of_nat _ <? 4); eauto.
Qed.

Lemma size_eqb_true (xs ys : list Z) : size_eqb xs ys = true <-> xs = ys.
Proof. unfold size_eqb. now rewrite bool_decide_eq_true. Qed.

(** ** The namespace *)

Lemma notebook_never_binds_v : "v" ∉ notebook_toplevel_names.
Proof. apply (bool_decide_unpack _). vm_compute. exact I. Qed.

Lemma notebook_namespace_has_no_v `{Torch} (g : gmap string PyObj) :
  dom g ⊆ notebook_toplevel_names -> g !! "v" = None.
Proof.
  intros Hdom. apply not_elem_of_dom. intros Hv.
  exact (notebook_never_binds_v (Hdom _ Hv)).
Qed.

Lemma notebook_globals_names : dom notebook_globals ⊆ notebook_toplevel_names.
Proof. apply (bool_decide_unpack _). vm_compute. exact I. Qed.

Lemma load_global_unbound `{Torch} (g : gmap string PyObj) (name : string) :
  g !! name = None -> load_global g name = Raise (NameError name).
Proof. unfold load_global. now intros ->. Qed.

(** ** [attention_forward] *)

(** Once the shape checks pass, all that is left of the function is the
    lookup of the global [v], the check of its shape and the return. *)
Lemma attention_forward_after_checks `{Torch} (g : gmap string PyObj)
    (query key value : Tensor) (p : Linear) (b q_len k_len h d : Z) :
  shape query = [b; q_len; h; d] ->
  shape key = [b; k_len; h; d] ->
  shape value = shape key ->
  q_len <= k_len ->
  attention_forward g query key value p =
    (v ← load_global g "v";
     v_shape ← getattr_shape v;
     py_assert (size_eqb v_shape [b; q_len; h * d]);;
     as_tensor v).
Proof.
  intros Hq Hk Hv Hle. unfold attention_forward.
  rewrite Hq, Hk, Hv. cbn.
  rewrite (py_assert_true (size_eqb _ _)) by now apply size_eqb_true.
  cbn. rewrite (py_assert_true (q_len <=? k_len)) by lia.
  cbn. rewrite Z.eqb_refl. cbn.
  rewrite (py_assert_true (size_eqb _ _)) by now apply size_eqb_true.
  reflexivity.
Qed.

Lemma precondition_shapes `{Torch} (query key value : Tensor) :
  precondition query key value ->
  exists b q_len k_len h d,
    shape query = [b; q_len; h; d] /\ shape key = [b; k_len; h; d] /\
    shape value = shape key /\ q_len <= k_len.
Proof.
  intros (b & ql & h & d & b' & kl & h' & d' & Hq & Hk & Hle & Hv & Hb & Hhd).
  injection Hhd as -> ->. subst b'.
  now exists b, ql, kl, h', d'.
Qed.

(** The function inspects shapes only: neither the entries of the three
    tensors nor the projection are ever read. *)
Lemma attention_forward_reads_shapes_only `{Torch} (g : gmap string PyObj)
    (query key value query' key' value' : Tensor) (p p' : Linear) :
  shape query = shape query' ->
  shape key = shape key' ->
  shape value = shape value' ->
  attention_forward g query key value p
    = attention_forward g query' key' value' p'.
Proof.
  intros Hq Hk Hv. unfold attention_forward. now rewrite Hq, Hk, Hv.
Qed.

(** The final assert: whatever is returned has the shape
    [(batch, q_seq_len, num_heads * head_dim)]. *)
Lemma attention_forward_result_shape `{Torch} (g : gmap string PyObj)
    (query key value : Tensor) (p : Linear) (out : Tensor) (b q_len h d : Z) :
  shape query = [b; q_len; h; d] ->
  attention_forward g query key value p = Ok out ->
  shape out = [b; q_len; h * d].
Proof.
  intros Hq Hret. unfold attention_forward in Hret. rewrite Hq in Hret.
  cbn in Hret.
  destruct (unpack4_cases (shape key)) as [(b' & kl & h' & d' & Hk & Hu)|[_ [m Hu]]];
    rewrite Hu in Hret; cbn in Hret; [|discriminate].
  rewrite Hk in Hret. cbn in Hret.
  destruct (size_eqb (shape value) _); cbn in Hret; [|discriminate].
  destruct (q_len <=? kl); cbn in Hret; [|discriminate].
  destruct (b =? b') eqn:Hb; cbn in Hret; [|discriminate].
  destruct (size_eqb [h; d] [h'; d']) eqn:Hhd; cbn in Hret; [|discriminate].
  apply Z.eqb_eq in Hb. apply size_eqb_true in Hhd. injection Hhd as <- <-.
  subst b'.
  destruct (load_global g "v") as [o|]; cbn in Hret; [|discriminate].
  destruct o as [t|]; cbn in Hret; [|discriminate].
  destruct (size_eqb (shape t) _) eqn:Hs; cbn in Hret; [|discriminate].
  injection Hret as <-. now apply size_eqb_true.
Qed.

(** C9. For every input that passes the precondition asserts, the committed
    [attention_forward] never returns a value: nothing between the TODO
    markers assigns [v], no cell binds it either, and the call fails at the
    final shape assert with the unbound-name error for [v]. *)
Theorem attention_forward_never_returns `{Torch} (g : gmap string PyObj)
    (query key value : Tensor) (p : Linear) :
  g !! "v" = None ->
  precondition query key value ->
  attention_forward g query key value p = Raise (NameError "v").
Proof.
  intros Hv Hpre.
  destruct (precondition_shapes _ _ _ Hpre)
    as (b & q_len & k_len & h & d & Hq & Hk & Hval & Hle).
  rewrite (attention_forward_after_checks g _ _ _ p _ _ _ _ _ Hq Hk Hval Hle).
  now rewrite (load_global_unbound g "v" Hv).
Qed.

(** The three-position scenario, in the notebook's namespace. *)
Lemma attention_forward_never_returns_witness :
  notebook_globals !! "v" = None /\
  precondition scenario scenario scenario /\
  attention_forward notebook_globals scenario scenario scenario (eye 2)
    = Raise (NameError "v").
Proof.
  assert (Hv : notebook_globals !! "v" = None) by (vm_compute; reflexivity).
  assert (Hpre : precondition scenario scenario scenario).
  { exists 1, 3, 1, 2, 1, 3, 1, 2. cbn. repeat split; lia. }
  split; [exact Hv|]. split; [exact Hpre|].
  exact (attention_forward_never_returns notebook_globals
           scenario scenario scenario (eye 2) Hv Hpre).
Defined.

(** C6, as stated, fails: a batch mismatch, too many queries and a
    mismatch of the trailing dimensions all raise the same
    [AssertionError] without any message, so the error does not tell which
    dimension mismatched. *)
Lemma attention_forward_assert_is_anonymous :
  attention_forward notebook_globals batch_2 batch_1 batch_1 (eye 2)
    = Raise (AssertionError None) /\
  attention_forward notebook_globals three_queries two_keys two_keys (eye 2)
    = Raise (AssertionError None) /\
  attention_forward notebook_globals head_dim_3 batch_1 batch_1 (eye 2)
    = Raise (AssertionError None).
Proof. repeat split; vm_compute; reflexivity. Qed.

(** C6, amended. For every input violating the precondition,
    [attention_forward] aborts before it reaches the TODO region, whatever
    the namespace holds: with a bare [AssertionError] (no message) when
    query and key are four-dimensional, and with the [ValueError] of the
    tuple unpacking otherwise. *)
Theorem attention_forward_rejects_bad_shapes `{Torch}
    (query key value : Tensor) (p : Linear) :
  ~ precondition query key value ->
  exists e,
    (forall g : gmap string PyObj,
       attention_forward g query key value p = Raise e) /\
    (length (shape query) = 4%nat -> length (shape key) = 4%nat ->
     e = AssertionError None) /\
    (length (shape query) <> 4%nat \/ length (shape key) <> 4%nat ->
     exists m, e = ValueError m).
Proof.
  intros Hbad. unfold attention_forward.
  destruct (unpack4_cases (shape query))
    as [(b & ql & h & d & Hq & Huq)|[Hlq [m Huq]]]; rewrite Huq; cbn.
  2:{ exists (ValueError m). repeat split; eauto. intros; contradiction. }
  destruct (unpack4_cases (shape key))
    as [(b' & kl & h' & d' & Hk & Huk)|[Hlk [m Huk]]]; rewrite Huk; cbn.
  2:{ exists (ValueError m). repeat split; eauto. intros; contradiction. }
  exists (AssertionError None).
  split; [|split; [reflexivity|]].
  2:{ rewrite Hq, Hk. cbn. intros [Hne | Hne]; now contradiction Hne. }
  intros g. rewrite Hq, Hk. cbn.
  destruct (size_eqb (shape value) [b'; kl; h'; d']) eqn:Hv; cbn; [|reflexivity].
  destruct (ql <=? kl) eqn:Hle; cbn; [|reflexivity].
  destruct (b =? b') eqn:Hb; cbn; [|reflexivity].
  destruct (size_eqb [h; d] [h'; d']) eqn:Hhd; cbn; [|reflexivity].
  exfalso. apply Hbad.
  apply size_eqb_true in Hv, Hhd. apply Z.eqb_eq in Hb. apply Z.leb_le in Hle.
  exists b, ql, h, d, b', kl, h', d'.
  rewrite Hk. repeat split; auto.
Qed.

(** Three queries against two keys, and a query of rank three. *)
Lemma attention_forward_rejects_bad_shapes_witness :
  (~ precondition three_queries two_keys two_keys /\
   forall g : gmap string PyObj,
     attention_forward g three_queries two_keys two_keys (eye 2)
       = Raise (AssertionError None)) /\
  (~ precondition one_token two_keys two_keys /\
   exists m, forall g : gmap string PyObj,
     attention_forward g one_token two_keys two_keys (eye 2)
       = Raise (ValueError m)).
Proof.
  assert (Hbad : ~ precondition three_queries two_keys two_keys).
  { intros (b & ql & h & d & b' & kl & h' & d' & Hq & Hk & Hle & _).
    cbn in Hq, Hk. injection Hq as <- <- <- <-. injection Hk as <- <- <- <-.
    lia. }
  assert (Hbad' : ~ precondition one_token two_keys two_keys).
  { intros (b & ql & h & d & b' & kl & h' & d' & Hq & _).
    cbn in Hq. discriminate Hq. }
  split; (split; [assumption|]).
  - destruct (@attention_forward_rejects_bad_shapes ZTorch.torch
                three_queries two_keys two_keys (eye 2) Hbad)
      as (e & Hraise & H4 & _).
    rewrite (H4 eq_refl eq_refl) in Hraise. exact Hraise.
  - destruct (@attention_forward_rejects_bad_shapes ZTorch.torch
                one_token two_keys two_keys (eye 2) Hbad')
      as (e & Hraise & _ & H3).
    destruct H3 as [m ->]; [left; cbn; lia|].
    now exists m.
Defined.

(** What does hold of the two statements after the TODO markers: the
    outcome depends on the namespace through the binding of [v] only. *)
Lemma attention_forward_reads_only_v `{Torch} (g1 g2 : gmap string PyObj)
    (query key value : Tensor) (p : Linear) :
  g1 !! "v" = g2 !! "v" ->
  attention_forward g1 query key value p
    = attention_forward g2 query key value p.
Proof.
  intros Hv. unfold attention_forward, load_global. now rewrite Hv.
Qed.


(** ** [custom_attention_forward] *)




(** ** The attention computation the exercise asks for *)

(** C1. With head_dim 64 and an all-ones query and key, the raw score is
    expected to be 64 / sqrt 64 = 8.  The committed function computes no
    score: the call raises the unbound-name error for [v]. *)
Theorem attention_forward_computes_no_score :
  attention_forward notebook_globals ones_64 ones_64 ones_64 (eye 64)
    = Raise (NameError "v").
Proof. vm_compute. reflexivity. Qed.

(** C2. On three positions the weights above the diagonal are expected to
    vanish.  The committed function masks nothing and produces no weight:
    the call raises the unbound-name error for [v]. *)
Theorem attention_forward_applies_no_mask :
  attention_forward notebook_globals scenario scenario scenario (eye 2)
    = Raise (NameError "v").
Proof. vm_compute. reflexivity. Qed.

(** C3. Each row of weights is expected to sum to one, also on inputs of
    large magnitude.  The committed function normalises nothing: the call
    raises the unbound-name error for [v]. *)
Theorem attention_forward_computes_no_softmax :
  attention_forward notebook_globals large large large (eye 2)
    = Raise (NameError "v").
Proof. vm_compute. reflexivity. Qed.

(** C4. The values are expected to be gathered with the normalised
    weights.  The committed function aggregates nothing: with two heads
    and two positions the call raises the unbound-name error for [v]. *)
Theorem attention_forward_aggregates_nothing :
  attention_forward notebook_globals two_heads_q two_heads_q two_heads_v (eye 2)
    = Raise (NameError "v").
Proof. vm_compute. reflexivity. Qed.

(** C5. For shapes (2, 3, 4, 5) and a projection from 20 to 7 features the
    result is expected to have shape (2, 3, 20) before and (2, 3, 7) after
    the projection.  The committed function returns no result of any
    shape: the call raises the unbound-name error for [v]. *)
Theorem attention_forward_returns_no_shape :
  attention_forward notebook_globals zeros_2345 zeros_2345 zeros_2345 proj_20_7
    = Raise (NameError "v").
Proof. vm_compute. reflexivity. Qed.

(** C8. For a single token the output is expected to be the projection of
    the value reshaped to (batch, 1, heads * head_dim), here the tensor
    [[5, 6]].  The committed function returns nothing: the call raises the
    unbound-name error for [v]. *)
Theorem attention_forward_single_token_fails :
  (reshaped ← view single_v [1; 1; 2]; call_module (eye 2) reshaped)
    = Ok (ZTorch.mkT [1; 1; 2] [5; 6]) /\
  attention_forward notebook_globals single_q single_q single_v (eye 2)
    = Raise (NameError "v").
Proof. split; vm_compute; reflexivity. Qed.

(** * Further properties of the notebook's functions *)

Import ZTorch.
Local Open Scope list_scope.

(** ** Interface level: any tensor library, any cache class *)

Lemma unpack3_cases (xs : list Z) :
  (exists a b c, xs = [a; b; c] /\ unpack3 xs = Ok (a, b, c)) \/
  (length xs <> 3%nat /\ exists m, unpack3 xs = Raise (ValueError m)).
Proof.
  destruct xs as [|a [|b [|c [|d xs]]]];
    try (right; split; [cbn; lia | cbn; eauto]; fail).
  - left. now exists a, b, c.
  - right. split; [cbn; lia|]. unfold unpack3.
    destruct (Z.of_nat _ <? 3); eauto.
Qed.


(** A call that returns has loaded a tensor from the global [v] and
    returned it. *)
Lemma attention_forward_Ok_inv `{Torch} (g : gmap string PyObj)
    (query key value : Tensor) (p : Linear) (out : Tensor) :
  attention_forward g query key value p = Ok out ->
  load_global g "v" = Ok (PyTensor out).
Proof.
  intros Hret. unfold attention_forward in Hret.
  repeat
    (apply bind_Ok_inv in Hret as (? & ? & Hret);
     repeat match type of Hret with
            | context [let '(_, _) := ?x in _] => destruct x
            end).
  match goal with
  | Hload : load_global g "v" = Ok ?o |- _ =>
      rewrite Hload; destruct o as [t|]; [|discriminate]
  end.
  now injection Hret as ->.
Qed.

(** X1. Whatever [attention_forward] returns is the very tensor bound to
    the global name [v]; nothing computed from query, key or value is ever
    returned. *)
Theorem attention_forward_returns_global_v `{Torch} (g : gmap string PyObj)
    (query key value : Tensor) (p : Linear) (out : Tensor) :
  attention_forward g query key value p = Ok out ->
  g !! "v" = Some (PyTensor out).
Proof.
  intros Hret. apply attention_forward_Ok_inv in Hret.
  unfold load_global in Hret.
  destruct (g !! "v") as [o|]; [|discriminate].
  now injection Hret as ->.
Qed.

Lemma attention_forward_returns_global_v_witness :
  attention_forward globals_with_v single_q single_q single_v (eye 2)
    = Ok (mkT [1; 1; 2] [0; 0]) /\
  globals_with_v !! "v" = Some (PyTensor (mkT [1; 1; 2] [0; 0])).
Proof.
  assert (Hret : attention_forward globals_with_v single_q single_q single_v
                   (eye 2) = Ok (mkT [1; 1; 2] [0; 0]))
    by (vm_compute; reflexivity).
  split; [exact Hret|].
  exact (attention_forward_returns_global_v globals_with_v
           single_q single_q single_v (eye 2) _ Hret).
Defined.

(** X2. [attention_forward] returns only after every shape check has
    passed, and the final assert lets through only a tensor of shape
    (batch, q_seq_len, num_heads * head_dim). *)
Theorem attention_forward_post_assert `{Torch} (g : gmap string PyObj)
    (query key value : Tensor) (p : Linear) (out : Tensor) :
  attention_forward g query key value p = Ok out ->
  precondition query key value /\
  exists b q_len h d,
    shape query = [b; q_len; h; d] /\ shape out = [b; q_len; h * d].
Proof.
  intros Hret. pose proof Hret as Hret'. unfold attention_forward in Hret.
  destruct (unpack4_cases (shape query))
    as [(b & ql & h & d & Hq & Huq)|[_ [m Huq]]];
    rewrite Huq in Hret; cbn in Hret; [|discriminate].
  destruct (unpack4_cases (shape key))
    as [(b' & kl & h' & d' & Hk & Huk)|[_ [m Huk]]];
    rewrite Huk in Hret; cbn in Hret; [|discriminate].
  rewrite Hq, Hk in Hret. cbn in Hret.
  destruct (size_eqb (shape value) _) eqn:Hv; cbn in Hret; [|discriminate].
  destruct (ql <=? kl) eqn:Hle; cbn in Hret; [|discriminate].
  destruct (b =? b') eqn:Hb; cbn in Hret; [|discriminate].
  destruct (size_eqb [h; d] [h'; d']) eqn:Hhd; cbn in Hret; [|discriminate].
  apply size_eqb_true in Hv, Hhd. apply Z.eqb_eq in Hb. apply Z.leb_le in Hle.
  split.
  - exists b, ql, h, d, b', kl, h', d'. rewrite Hk. repeat split; auto.
  - exists b, ql, h, d. split; [exact Hq|].
    exact (attention_forward_result_shape g query key value p out b ql h d
             Hq Hret').
Qed.

Lemma attention_forward_post_assert_witness :
  attention_forward globals_with_v single_q single_q single_v (eye 2)
    = Ok (mkT [1; 1; 2] [0; 0]) /\
  precondition single_q single_q single_v /\
  exists b q_len h d,
    shape single_q = [b; q_len; h; d] /\
    shape (mkT [1; 1; 2] [0; 0]) = [b; q_len; h * d].
Proof.
  assert (Hret : attention_forward globals_with_v single_q single_q single_v
                   (eye 2) = Ok (mkT [1; 1; 2] [0; 0]))
    by (vm_compute; reflexivity).
  split; [exact Hret|].
  exact (attention_forward_post_assert globals_with_v
           single_q single_q single_v (eye 2) _ Hret).
Defined.

(** X7. [repeat_kv] unpacks the shape into four names before it looks at
    [n_rep]: a tensor that is not four-dimensional raises [ValueError],
    also when [n_rep] is 1. *)
Theorem repeat_kv_rejects_other_ranks `{Torch} (hidden_states : Tensor) (n_rep : Z) :
  length (shape hidden_states) <> 4%nat ->
  exists m, repeat_kv hidden_states n_rep = Raise (ValueError m).
Proof.
  intros Hlen. unfold repeat_kv.
  destruct (unpack4_cases (shape hidden_states))
    as [(a & b & c & d & Hs & _)|[_ [m Hu]]].
  - rewrite Hs in Hlen. now cbn in Hlen.
  - rewrite Hu. cbn. eauto.
Qed.

Lemma repeat_kv_rejects_other_ranks_witness :
  length (shape one_token) <> 4%nat /\
  exists m, repeat_kv one_token 1 = Raise (ValueError m).
Proof.
  assert (Hlen : length (shape one_token) <> 4%nat) by (cbn; lia).
  split; [exact Hlen|].
  exact (repeat_kv_rejects_other_ranks one_token 1 Hlen).
Defined.


(** X8. On a tensor of rank 0 [rotate_half] fails at [x.shape[-1]] with
    [IndexError], before any tensor operation. *)
Theorem rotate_half_scalar `{Torch} (x : Tensor) :
  shape x = [] ->
  rotate_half x = Raise (IndexError "tuple index out of range").
Proof. intros Hs. unfold rotate_half. now rewrite Hs. Qed.

Lemma rotate_half_scalar_witness :
  shape scalar_7 = [] /\
  rotate_half scalar_7 = Raise (IndexError "tuple index out of range").
Proof.
  assert (Hs : shape scalar_7 = []) by reflexivity.
  split; [exact Hs|].
  exact (rotate_half_scalar scalar_7 Hs).
Defined.

Lemma custom_attention_forward_inv {torch : Torch} {kvcache : KVCache}
    (g : gmap string PyObj) self hs mask pos pkv oa uc cp pe kw out w c :
  custom_attention_forward g self hs mask pos pkv oa uc cp pe kw = Ok (out, w, c) ->
  exists q k v, attention_forward g q k v (o_proj self) = Ok out.
Proof.
  intros Hret. unfold custom_attention_forward in Hret.
  repeat
    (apply bind_Ok_inv in Hret as (? & ? & Hret);
     repeat match type of Hret with
            | context [let '(_, _) := ?x in _] => destruct x
            end).
  injection Hret as <- _ _. eauto.
Qed.


(** X5. Whatever [custom_attention_forward] returns as attention output is
    the tensor bound to the global [v], not a function of [hidden_states];
    and without a cache the third component is [None]. *)
Theorem custom_attention_forward_returns_global_v
    {torch : Torch} {kvcache : KVCache}
    (g : gmap string PyObj) (self : LlamaAttention) (hidden_states : Tensor)
    (attention_mask position_ids : option Tensor)
    (past_key_value : option Cache)
    (output_attentions use_cache : bool)
    (cache_position : option Tensor)
    (position_embeddings : option (Tensor * Tensor))
    (kwargs : gmap string PyObj)
    (attn_output : Tensor) (attn_weights : option Tensor) (cache : option Cache) :
  custom_attention_forward g self hidden_states attention_mask position_ids
      past_key_value output_attentions use_cache cache_position
      position_embeddings kwargs
    = Ok (attn_output, attn_weights, cache) ->
  g !! "v" = Some (PyTensor attn_output) /\
  (past_key_value = None -> cache = None).
Proof.
  intros Hret. split.
  - destruct (custom_attention_forward_inv _ _ _ _ _ _ _ _ _ _ _ _ _ _ Hret)
      as (q & k & v & Hatt).
    apply attention_forward_Ok_inv in Hatt. unfold load_global in Hatt.
    destruct (g !! "v") as [o|]; [|discriminate].
    now injection Hatt as ->.
  - intros ->. unfold custom_attention_forward in Hret.
    repeat
      (apply bind_Ok_inv in Hret as (? & ? & Hret);
       repeat match type of Hret with
              | context [let '(_, _) := ?x in _] => destruct x
              end).
    injection Hret as _ _ <-.
    match goal with Hc : Ok _ = Ok _ |- _ => now injection Hc as _ _ <- end.
Qed.

Lemma custom_attention_forward_returns_global_v_witness :
  exists attn_weights,
    custom_attention_forward globals_with_v layer one_token None None
        None true true (Some (position 1)) None ∅
      = Ok (mkT [1; 1; 2] [0; 0], attn_weights, None) /\
    globals_with_v !! "v" = Some (PyTensor (mkT [1; 1; 2] [0; 0])).
Proof.
  exists None.
  assert (Hret : custom_attention_forward (kvcache := fixed_kvcache)
                   globals_with_v layer one_token None None
                   None true true (Some (position 1)) None ∅
                 = Ok (mkT [1; 1; 2] [0; 0], None, None))
    by (vm_compute; reflexivity).
  split; [exact Hret|].
  exact (proj1 (custom_attention_forward_returns_global_v
                  (kvcache := fixed_kvcache) globals_with_v layer one_token
                  None None None true true (Some (position 1)) None ∅
                  _ _ _ Hret)).
Defined.


(** X4. In a namespace that does not bind [v], as every namespace of the
    notebook, no call of [custom_attention_forward] returns, whatever the
    layer, the cache and the arguments: the forward pass of the patched
    model cannot complete. *)
Theorem custom_attention_forward_never_returns
    {torch : Torch} {kvcache : KVCache}
    (g : gmap string PyObj) (self : LlamaAttention) (hidden_states : Tensor)
    (attention_mask position_ids : option Tensor)
    (past_key_value : option Cache)
    (output_attentions use_cache : bool)
    (cache_position : option Tensor)
    (position_embeddings : option (Tensor * Tensor))
    (kwargs : gmap string PyObj) :
  g !! "v" = None ->
  exists e,
    custom_attention_forward g self hidden_states attention_mask position_ids
      past_key_value output_attentions use_cache cache_position
      position_embeddings kwargs
    = Raise e.
Proof.
  intros Hv.
  destruct (custom_attention_forward _ _ _ _ _ _ _ _ _ _ _)
    as [[[out w] c]|e] eqn:Hret; [|eauto].
  destruct (custom_attention_forward_inv _ _ _ _ _ _ _ _ _ _ _ _ _ _ Hret)
    as (q & k & v & Hatt).
  apply attention_forward_Ok_inv in Hatt.
  rewrite (load_global_unbound g "v" Hv) in Hatt. discriminate.
Qed.

Lemma custom_attention_forward_never_returns_witness :
  notebook_globals !! "v" = None /\
  exists e,
    custom_attention_forward notebook_globals layer one_token None None
      (Some empty_cache) false false (Some (position 0))
      (Some (cos_0, sin_0)) ∅
    = Raise e.
Proof.
  assert (Hv : notebook_globals !! "v" = None) by (vm_compute; reflexivity).
  split; [exact Hv|].
  exact (custom_attention_forward_never_returns (kvcache := fixed_kvcache)
           notebook_globals layer one_token None None (Some empty_cache)
           false false (Some (position 0)) (Some (cos_0, sin_0)) ∅ Hv).
Defined.


(** X6. [hidden_states] that is not three-dimensional makes
    [custom_attention_forward] raise [ValueError] at its first statement,
    before any projection is applied. *)
Theorem custom_attention_forward_rejects_other_ranks
    {torch : Torch} {kvcache : KVCache}
    (g : gmap string PyObj) (self : LlamaAttention) (hidden_states : Tensor)
    (attention_mask position_ids : option Tensor)
    (past_key_value : option Cache)
    (output_attentions use_cache : bool)
    (cache_position : option Tensor)
    (position_embeddings : option (Tensor * Tensor))
    (kwargs : gmap string PyObj) :
  length (shape hidden_states) <> 3%nat ->
  exists m,
    custom_attention_forward g self hidden_states attention_mask position_ids
      past_key_value output_attentions use_cache cache_position
      position_embeddings kwargs
    = Raise (ValueError m).
Proof.
  intros Hlen. unfold custom_attention_forward.
  destruct (unpack3_cases (shape hidden_states))
    as [(a & b & c & Hs & _)|[_ [m Hu]]].
  - rewrite Hs in Hlen. now cbn in Hlen.
  - rewrite Hu. cbn. eauto.
Qed.

Lemma custom_attention_forward_rejects_other_ranks_witness :
  length (shape single_q) <> 3%nat /\
  exists m,
    custom_attention_forward notebook_globals layer single_q None None
      None false false None None ∅
    = Raise (ValueError m).
Proof.
  assert (Hlen : length (shape single_q) <> 3%nat) by (cbn; lia).
  split; [exact Hlen|].
  exact (custom_attention_forward_rejects_other_ranks
           (kvcache := fixed_kvcache) notebook_globals layer single_q
           None None None false false None None ∅ Hlen).
Defined.

(** ** On the executable instance: index arithmetic *)

Lemma numel_cons (d : Z) (s : list Z) : numel (d :: s) = d * numel s.
Proof. reflexivity. Qed.

Lemma numel_nonneg (s : list Z) : Forall (fun d => 0 <= d) s -> 0 <= numel s.
Proof. induction 1; [cbn; lia | rewrite numel_cons; nia]. Qed.

Lemma in_range_nonneg (s idx : list Z) :
  in_range s idx -> Forall (fun d => 0 <= d) s.
Proof. induction 1; constructor; [lia | assumption]. Qed.

Lemma in_range_length (s idx : list Z) : in_range s idx -> length idx = length s.
Proof. intros H. symmetry. exact (Forall2_length _ _ _ H). Qed.

Lemma offset_acc (s idx : list Z) (acc : Z) :
  length s = length idx ->
  fold_left (fun acc p => acc * p.1 + p.2) (zip s idx) acc
    = acc * numel s + offset s idx.
Proof.
  unfold offset. revert idx acc.
  induction s as [|d s IH]; intros [|i idx] acc Hlen; try discriminate.
  - cbn. lia.
  - cbn in Hlen. injection Hlen as Hlen. rewrite numel_cons.
    cbn [zip_with fold_left fst snd].
    rewrite (IH idx (acc * d + i) Hlen), (IH idx (0 * d + i) Hlen). ring.
Qed.

Lemma offset_cons (d i : Z) (s idx : list Z) :
  length s = length idx ->
  offset (d :: s) (i :: idx) = i * numel s + offset s idx.
Proof.
  intros Hlen. unfold offset at 1. cbn. rewrite offset_acc by assumption. ring.
Qed.

Lemma offset_bounds (s idx : list Z) :
  in_range s idx -> 0 <= offset s idx < numel s.
Proof.
  induction 1 as [|d i s idx Hi Hr IH].
  - cbn. lia.
  - rewrite offset_cons by exact (Forall2_length _ _ _ Hr).
    rewrite numel_cons. nia.
Qed.

Lemma length_bind_const {A B} (g : A -> list B) (n : nat) (l : list A) :
  (forall x, length (g x) = n) -> length (l ≫= g) = (length l * n)%nat.
Proof.
  intros Hg. induction l as [|a l IH]; [reflexivity|].
  cbn. rewrite length_app, Hg, IH. lia.
Qed.

Lemma lookup_bind_const {A B} (g : A -> list B) (n : nat) (l : list A)
    (k r : nat) (x : A) :
  (forall x, length (g x) = n) ->
  l !! k = Some x -> (r < n)%nat ->
  (l ≫= g) !! (k * n + r)%nat = g x !! r.
Proof.
  intros Hg. revert k. induction l as [|a l IH]; intros k Hk Hr; [discriminate|].
  cbn. destruct k as [|k].
  - injection Hk as ->. cbn. apply lookup_app_l. now rewrite Hg.
  - cbn in Hk. rewrite lookup_app_r by (rewrite Hg; lia).
    rewrite Hg. replace (S k * n + r - n)%nat with (k * n + r)%nat by lia.
    now apply IH.
Qed.

Lemma length_indices (s : list Z) :
  Forall (fun d => 0 <= d) s -> length (indices s) = Z.to_nat (numel s).
Proof.
  induction 1 as [|d s Hd Hs IH]; [reflexivity|].
  rewrite numel_cons. cbn [indices].
  rewrite (length_bind_const _ (Z.to_nat (numel s))).
  - rewrite length_seqZ. pose proof (numel_nonneg s Hs).
    rewrite Z2Nat.inj_mul by lia. reflexivity.
  - intros x. now rewrite length_fmap.
Qed.

Lemma indices_lookup (s idx : list Z) :
  in_range s idx -> indices s !! Z.to_nat (offset s idx) = Some idx.
Proof.
  induction 1 as [|d i s idx Hi Hr IH]; [reflexivity|].
  pose proof (offset_bounds _ _ Hr) as Ho.
  pose proof (in_range_nonneg _ _ Hr) as Hs.
  rewrite offset_cons by exact (Forall2_length _ _ _ Hr).
  cbn [indices].
  replace (Z.to_nat (i * numel s + offset s idx))
    with (Z.to_nat i * Z.to_nat (numel s) + Z.to_nat (offset s idx))%nat by nia.
  rewrite (lookup_bind_const _ (Z.to_nat (numel s)) _ _ _ i).
  - now rewrite list_lookup_fmap, IH.
  - intros x. now rewrite length_fmap, length_indices.
  - rewrite lookup_seqZ. split; lia.
  - lia.
Qed.

Lemma get_build (s : list Z) (f : list Z -> Z) (idx : list Z) :
  in_range s idx -> get (build s f) idx = f idx.
Proof.
  intros Hr. unfold get, build. cbn [zshape zdata].
  now rewrite list_lookup_fmap, indices_lookup.
Qed.

Lemma unravel_spec (s : list Z) (k : Z) :
  Forall (fun d => 0 <= d) s -> 0 <= k < numel s ->
  in_range s (unravel s k) /\ offset s (unravel s k) = k.
Proof.
  intros Hs. revert k. induction Hs as [|d s Hd Hs IH]; intros k Hk.
  - cbn in *. split; [constructor|]. unfold offset. cbn. lia.
  - rewrite numel_cons in Hk. pose proof (numel_nonneg s Hs) as Hn.
    assert (0 < numel s) by nia.
    destruct (IH (k mod numel s)) as [Hr Ho]; [apply Z.mod_pos_bound; lia|].
    cbn [unravel]. split.
    + constructor; [|exact Hr]. split.
      * apply Z.div_pos; lia.
      * apply Z.div_lt_upper_bound; lia.
    + rewrite offset_cons by exact (Forall2_length _ _ _ Hr).
      rewrite Ho. rewrite (Z.div_mod k (numel s)) at 3 by lia. ring.
Qed.

Lemma indices_lookup_unravel (s : list Z) (k : nat) :
  Forall (fun d => 0 <= d) s -> (k < Z.to_nat (numel s))%nat ->
  indices s !! k = Some (unravel s (Z.of_nat k)).
Proof.
  intros Hs Hk.
  destruct (unravel_spec s (Z.of_nat k) Hs) as [Hr Ho]; [lia|].
  rewrite <- (indices_lookup _ _ Hr), Ho. now rewrite Nat2Z.id.
Qed.

Lemma build_get (t : ZTensor) : well_formed t -> build (zshape t) (get t) = t.
Proof.
  intros [Hs Hlen]. destruct t as [s data]. cbn [zshape zdata] in *.
  unfold build. f_equal.
  apply list_eq. intros k. rewrite list_lookup_fmap.
  destruct (decide (k < Z.to_nat (numel s))%nat) as [Hk|Hk].
  - rewrite indices_lookup_unravel by assumption.
    destruct (unravel_spec s (Z.of_nat k) Hs) as [_ Ho]; [lia|].
    unfold get. cbn [zshape zdata fmap option_fmap option_map].
    rewrite Ho, Nat2Z.id.
    destruct (data !! k) eqn:Hd; [reflexivity|].
    apply lookup_ge_None in Hd. lia.
  - rewrite (lookup_ge_None_2 (indices s)) by (rewrite length_indices; [lia|assumption]).
    cbn. symmetry. apply lookup_ge_None. lia.
Qed.

Lemma indices_in_range (s idx : list Z) : idx ∈ indices s -> in_range s idx.
Proof.
  revert idx. induction s as [|d s IH]; intros idx Hin.
  - cbn in Hin. apply list_elem_of_singleton in Hin as ->. constructor.
  - cbn [indices] in Hin. apply list_elem_of_bind in Hin as (i & Hin & Hi).
    apply list_elem_of_fmap in Hin as (idx' & -> & Hidx').
    apply elem_of_seqZ in Hi. constructor; [lia | now apply IH].
Qed.

Lemma build_ext (s : list Z) (f g : list Z -> Z) :
  (forall idx, in_range s idx -> f idx = g idx) -> build s f = build s g.
Proof.
  intros Hfg. unfold build. f_equal. apply list_eq. intros k.
  rewrite !list_lookup_fmap.
  destruct (indices s !! k) as [idx|] eqn:Hk; [|reflexivity].
  cbn. f_equal. apply Hfg, indices_in_range.
  now apply list_elem_of_lookup_2 in Hk.
Qed.

Lemma build_well_formed (s : list Z) (f : list Z -> Z) :
  Forall (fun d => 0 <= d) s -> well_formed (build s f).
Proof.
  intros Hs. split; [exact Hs|]. unfold build. cbn [zshape zdata].
  rewrite length_fmap, length_indices by assumption.
  pose proof (numel_nonneg s Hs). lia.
Qed.

Lemma get_neg (t : ZTensor) (idx : list Z) :
  get (mkT (zshape t) (Z.opp <$> zdata t)) idx = - get t idx.
Proof.
  unfold get. cbn [zshape zdata]. rewrite list_lookup_fmap.
  now destruct (zdata t !! _).
Qed.

Lemma init_snoc (s : list Z) (x : Z) : init (s ++ [x]) = s.
Proof.
  unfold init. rewrite length_app. cbn.
  replace (length s + 1 - 1)%nat with (length s) by lia.
  now rewrite take_app_length.
Qed.

Lemma last_dim_snoc (s : list Z) (x : Z) : last_dim (s ++ [x]) = x.
Proof. unfold last_dim. now rewrite last_snoc. Qed.

Lemma with_last_snoc (s : list Z) (x j : Z) : with_last (s ++ [x]) j = s ++ [j].
Proof. unfold with_last. now rewrite init_snoc. Qed.

Lemma snoc_not_nil (s : list Z) (x : Z) : s ++ [x] <> [].
Proof. now destruct s. Qed.

Lemma in_range_snoc (s idx : list Z) (d j : Z) :
  in_range s idx -> 0 <= j < d -> in_range (s ++ [d]) (idx ++ [j]).
Proof.
  intros Hr Hj. apply Forall2_app; [exact Hr|]. now repeat constructor.
Qed.

Lemma in_range_snoc_inv (s idx : list Z) (d : Z) :
  in_range (s ++ [d]) idx ->
  exists idx0 j, idx = idx0 ++ [j] /\ in_range s idx0 /\ 0 <= j < d.
Proof.
  intros Hr. apply Forall2_app_inv_l in Hr as (idx0 & idx1 & Hr0 & Hr1 & ->).
  inversion Hr1 as [|? j ? ? Hj Hnil]; subst. inversion Hnil; subst.
  now exists idx0, j.
Qed.

Lemma z_slice_last_to_snoc (x : ZTensor) (s0 : list Z) (L n : Z) :
  zshape x = s0 ++ [L] ->
  z_slice_last_to x n = Ok (build (s0 ++ [clamp L n]) (get x)).
Proof.
  intros Hs. unfold z_slice_last_to.
  destruct (zshape x) as [|d s'] eqn:E; [now destruct s0|].
  now rewrite Hs, with_last_snoc, last_dim_snoc.
Qed.

Lemma z_slice_last_from_snoc (x : ZTensor) (s0 : list Z) (L n : Z) :
  zshape x = s0 ++ [L] ->
  z_slice_last_from x n =
    Ok (build (s0 ++ [L - clamp L n])
          (fun idx => get x (with_last idx (last_dim idx + clamp L n)))).
Proof.
  intros Hs. unfold z_slice_last_from.
  destruct (zshape x) as [|d s'] eqn:E; [now destruct s0|].
  now rewrite Hs, with_last_snoc, last_dim_snoc.
Qed.

Lemma z_cat_last_snoc (a b : ZTensor) (s0 : list Z) (la lb : Z) :
  zshape a = s0 ++ [la] -> zshape b = s0 ++ [lb] ->
  z_cat_last a b =
    Ok (build (s0 ++ [la + lb])
          (fun idx =>
             let j := last_dim idx in
             if j <? la then get a idx else get b (with_last idx (j - la)))).
Proof.
  intros Ha Hb. unfold z_cat_last.
  destruct (zshape a) as [|da sa] eqn:Ea; [now destruct s0|].
  destruct (zshape b) as [|db sb] eqn:Eb; [now destruct s0|].
  rewrite Ha, Hb, !init_snoc, !last_dim_snoc, with_last_snoc.
  now rewrite bool_decide_eq_true_2.
Qed.

Lemma rotate_half_eq (x : ZTensor) (s0 : list Z) (L : Z) :
  zshape x = s0 ++ [L] ->
  exists F,
    rotate_half x = Ok (build (s0 ++ [L]) F) /\
    forall idx0 j, in_range s0 idx0 -> 0 <= j < L ->
      F (idx0 ++ [j]) =
        if j <? L - L / 2 then - get x (idx0 ++ [j + L / 2])
        else get x (idx0 ++ [j - (L - L / 2)]).
Proof.
  intros Hs. unfold rotate_half. cbn [shape neg slice_last_to slice_last_from cat_last torch].
  rewrite Hs. unfold py_last. rewrite last_snoc. cbn [mbind Result_bind].
  rewrite (z_slice_last_to_snoc x s0 L _ Hs). cbn [mbind Result_bind].
  rewrite (z_slice_last_from_snoc x s0 L _ Hs). cbn [mbind Result_bind].
  set (c := clamp L (L / 2)).
  erewrite (z_cat_last_snoc _ _ s0 (L - c) c); [|reflexivity..].
  replace (L - c + c) with L by lia.
  eexists. split; [reflexivity|].
  intros idx0 j Hr Hj. cbn beta zeta.
  rewrite last_dim_snoc, with_last_snoc.
  assert (Hc : c = L / 2).
  { unfold c, clamp. assert (0 <= L / 2 <= L).
    { split; [apply Z.div_pos; lia|]. apply Z.div_le_upper_bound; lia. }
    destruct (L / 2 <? 0) eqn:E; lia. }
  rewrite Hc. destruct (j <? L - L / 2) eqn:Ej.
  - apply Z.ltb_lt in Ej.
    rewrite get_neg, get_build by (apply in_range_snoc; [assumption | lia]).
    now rewrite last_dim_snoc, with_last_snoc.
  - apply Z.ltb_ge in Ej.
    rewrite get_build by (apply in_range_snoc; [assumption | lia]).
    reflexivity.
Qed.


(** X9. On a tensor whose last dimension has size [L], [rotate_half]
    returns a tensor of the same shape whose entry at last index [j] is
    [-x[..., j + L // 2]] for the first [L - L // 2] indices and
    [x[..., j - (L - L // 2)]] for the others. *)
Theorem rotate_half_entries (x : ZTensor) (s0 : list Z) (L : Z) :
  zshape x = s0 ++ [L] ->
  exists r,
    rotate_half x = Ok r /\
    zshape r = zshape x /\
    forall idx0 j, in_range s0 idx0 -> 0 <= j < L ->
      get r (idx0 ++ [j]) =
        if j <? L - L / 2 then - get x (idx0 ++ [j + L / 2])
        else get x (idx0 ++ [j - (L - L / 2)]).
Proof.
  intros Hs. destruct (rotate_half_eq x s0 L Hs) as (F & Hrot & HF).
  eexists. split; [exact Hrot|]. split; [now rewrite Hs|].
  intros idx0 j Hr Hj.
  rewrite get_build by (apply in_range_snoc; assumption).
  now apply HF.
Qed.

Lemma rotate_half_entries_witness :
  zshape row_1234 = [1] ++ [4] /\
  exists r,
    rotate_half row_1234 = Ok r /\
    zshape r = zshape row_1234 /\
    get r ([0] ++ [1]) = - get row_1234 ([0] ++ [1 + 4 / 2]).
Proof.
  assert (Hs : zshape row_1234 = [1] ++ [4]) by reflexivity.
  split; [exact Hs|].
  destruct (rotate_half_entries row_1234 [1] 4 Hs) as (r & Hrot & Hshape & Hget).
  exists r. split; [exact Hrot|]. split; [exact Hshape|].
  apply (Hget [0] 1); [repeat constructor; lia | lia].
Defined.

Lemma neg_build (s : list Z) (f : list Z -> Z) :
  neg (build s f) = build s (fun idx => - f idx).
Proof.
  unfold build. cbn. f_equal. now rewrite <- list_fmap_compose.
Qed.


(** X10. When the last dimension is even, rotating twice negates the
    tensor: [rotate_half(rotate_half(x)) = -x]. *)
Theorem rotate_half_twice (x : ZTensor) (s0 : list Z) (h : Z) :
  well_formed x ->
  zshape x = s0 ++ [2 * h] ->
  (y ← rotate_half x; rotate_half y) = Ok (neg x).
Proof.
  intros Hwf Hs. pose proof Hwf as [Hnn _].
  assert (Hh : 0 <= h).
  { rewrite Hs in Hnn. apply Forall_app in Hnn as [_ Hl].
    inversion Hl; subst. lia. }
  assert (Hdiv : 2 * h / 2 = h) by (rewrite Z.mul_comm; apply Z.div_mul; lia).
  destruct (rotate_half_eq x s0 (2 * h) Hs) as (F1 & Hrot1 & HF1).
  rewrite Hrot1. cbn [mbind Result_bind].
  destruct (rotate_half_eq (build (s0 ++ [2 * h]) F1) s0 (2 * h) eq_refl)
    as (F2 & Hrot2 & HF2).
  rewrite Hrot2. f_equal.
  transitivity (neg (build (zshape x) (get x)));
    [|now rewrite (build_get x Hwf)].
  rewrite neg_build, Hs.
  apply build_ext. intros idx Hr.
  apply in_range_snoc_inv in Hr as (idx0 & j & -> & Hr0 & Hj).
  rewrite (HF2 idx0 j Hr0 Hj), Hdiv.
  replace (2 * h - h) with h by lia.
  destruct (j <? h) eqn:Ej.
  - apply Z.ltb_lt in Ej.
    rewrite get_build by (apply in_range_snoc; [assumption | lia]).
    rewrite (HF1 idx0 (j + h) Hr0) by lia. rewrite Hdiv.
    replace (2 * h - h) with h by lia.
    destruct (j + h <? h) eqn:E; [apply Z.ltb_lt in E; lia|].
    now replace (j + h - h) with j by lia.
  - apply Z.ltb_ge in Ej.
    rewrite get_build by (apply in_range_snoc; [assumption | lia]).
    rewrite (HF1 idx0 (j - h) Hr0) by lia. rewrite Hdiv.
    replace (2 * h - h) with h by lia.
    destruct (j - h <? h) eqn:E; [|apply Z.ltb_ge in E; lia].
    now replace (j - h + h) with j by lia.
Qed.

Lemma rotate_half_twice_witness :
  well_formed row_1234 /\
  zshape row_1234 = [1] ++ [2 * 2] /\
  (y ← rotate_half row_1234; rotate_half y) = Ok (neg row_1234).
Proof.
  assert (Hwf : well_formed row_1234).
  { split; [repeat constructor; lia | reflexivity]. }
  assert (Hs : zshape row_1234 = [1] ++ [2 * 2]) by reflexivity.
  split; [exact Hwf|]. split; [exact Hs|].
  exact (rotate_half_twice row_1234 [1] 2 Hwf Hs).
Defined.

Lemma infer_size_exact (dims : list Z) (n : Z) :
  Forall (fun d => 0 <= d) dims -> numel dims = n ->
  infer_size dims n = Ok dims.
Proof.
  intros Hnn Hn. unfold infer_size.
  rewrite bool_decide_eq_false_2.
  2:{ rewrite Exists_exists. intros (d & Hd & Hlt).
      rewrite Forall_forall in Hnn. specialize (Hnn d Hd). lia. }
  assert (Hf1 : filter (fun d => d <> -1) dims = dims).
  { clear Hn. induction Hnn as [|d dims Hd _ IH]; [reflexivity|].
    rewrite filter_cons_True by lia. now rewrite IH. }
  assert (Hf2 : filter (fun d => d = -1) dims = []).
  { clear Hn Hf1. induction Hnn as [|d dims Hd _ IH]; [reflexivity|].
    rewrite filter_cons_False by lia. exact IH. }
  rewrite Hf1, Hf2. cbn [length]. now rewrite Hn, Z.eqb_refl.
Qed.

Lemma expand_dims_keep (x : Z) (s dims rest : list Z) :
  0 <= x -> expand_dims s dims = Ok rest ->
  expand_dims (x :: s) (x :: dims) = Ok (x :: rest).
Proof.
  intros Hx Hrest. cbn [expand_dims]. rewrite Hrest. cbn [mbind Result_bind].
  destruct (x =? -1) eqn:E; [lia|]. now rewrite Z.eqb_refl.
Qed.

Lemma expand_dims_grow (n : Z) (s dims rest : list Z) :
  0 <= n -> expand_dims s dims = Ok rest ->
  expand_dims (1 :: s) (n :: dims) = Ok (n :: rest).
Proof.
  intros Hn Hrest. cbn [expand_dims]. rewrite Hrest. cbn [mbind Result_bind].
  destruct (n =? -1) eqn:E; [lia|].
  destruct (1 =? n); cbn; [reflexivity|].
  now rewrite (proj2 (Z.leb_le 0 n)) by lia.
Qed.

Lemma bidx_own (d i : Z) : 0 <= i < d -> (if d =? 1 then 0 else i) = i.
Proof. intros Hi. destruct (d =? 1) eqn:E; lia. Qed.


(** For [n_rep] other than 1: the tensor [repeat_kv] builds. *)
Lemma repeat_kv_eq (x : ZTensor) (b kv s d n : Z) :
  zshape x = [b; kv; s; d] ->
  0 <= b -> 0 <= kv -> 0 <= s -> 0 <= d -> 0 <= n ->
  (n =? 1) = false ->
  repeat_kv x n =
    Ok (mkT [b; kv * n; s; d]
          (zdata (build [b; kv; n; s; d] (fun idx =>
             get (mkT [b; kv; 1; s; d] (zdata x))
                 (bidx [b; kv; 1; s; d] idx))))).
Proof.
  intros Hs Hb Hkv Hsn Hd Hn En. unfold repeat_kv.
  cbn [shape unsqueeze expand reshape torch]. rewrite Hs.
  cbn [unpack4 mbind Result_bind]. rewrite En.
  unfold z_unsqueeze, rank. rewrite Hs. cbn [length wrap_dim].
  change (wrap_dim (Z.of_nat 4 + 1) 2) with (Ok (A:=nat) 2%nat).
  cbn [mbind Result_bind take drop app].
  unfold z_expand. cbn [zshape length Nat.ltb Nat.leb pad_left replicate app Nat.sub].
  rewrite (expand_dims_keep b _ _ [kv; n; s; d]); [|assumption|].
  2:{ apply expand_dims_keep; [assumption|].
      apply expand_dims_grow; [lia|].
      apply expand_dims_keep; [assumption|].
      now apply expand_dims_keep. }
  cbn [mbind Result_bind]. unfold z_view.
  rewrite (infer_size_exact [b; kv * n; s; d]).
  2:{ repeat constructor; nia. }
  2:{ unfold build, numel. cbn [zshape foldr]. lia. }
  reflexivity.
Qed.

Lemma repeat_kv_shape (x : ZTensor) (b kv s d n : Z) :
  zshape x = [b; kv; s; d] ->
  0 <= b -> 0 <= kv -> 0 <= s -> 0 <= d -> 1 <= n ->
  exists r, repeat_kv x n = Ok r /\ zshape r = [b; kv * n; s; d].
Proof.
  intros Hs Hb Hkv Hsn Hd Hn. destruct (n =? 1) eqn:En.
  - apply Z.eqb_eq in En as ->. exists x. split.
    + unfold repeat_kv. cbn [shape torch]. now rewrite Hs.
    + now rewrite Hs, Z.mul_1_r.
  - rewrite (repeat_kv_eq x b kv s d n) by (assumption || lia).
    eexists. split; reflexivity.
Qed.

(** X11. For a tensor of shape (batch, num_key_value_heads, slen, head_dim)
    and [n_rep >= 1], [repeat_kv] returns a tensor of shape
    (batch, num_key_value_heads * n_rep, slen, head_dim) whose head [h] is
    head [h // n_rep] of the input: it is [repeat_interleave] along
    dimension 1, as its docstring says. *)
Theorem repeat_kv_interleaves (x : ZTensor) (b kv s d n : Z) :
  zshape x = [b; kv; s; d] ->
  0 <= b -> 0 <= kv -> 0 <= s -> 0 <= d -> 1 <= n ->
  exists r,
    repeat_kv x n = Ok r /\
    zshape r = [b; kv * n; s; d] /\
    forall i h j l,
      0 <= i < b -> 0 <= h < kv * n -> 0 <= j < s -> 0 <= l < d ->
      get r [i; h; j; l] = get x [i; h / n; j; l].
Proof.
  intros Hs Hb Hkv Hsn Hd Hn.
  destruct (n =? 1) eqn:En.
  - apply Z.eqb_eq in En as ->. exists x. split.
    + unfold repeat_kv. cbn [shape torch]. now rewrite Hs.
    + split; [now rewrite Hs, Z.mul_1_r|].
      intros i h j l _ _ _ _. now rewrite Z.div_1_r.
  - rewrite (repeat_kv_eq x b kv s d n) by (assumption || lia).
    eexists. split; [reflexivity|]. split; [reflexivity|].
    intros i h j l Hi Hh Hj Hl.
    assert (Hq : 0 <= h / n < kv).
    { split; [apply Z.div_pos; lia|]. apply Z.div_lt_upper_bound; lia. }
    assert (Hm : 0 <= h mod n < n) by (apply Z.mod_pos_bound; lia).
    unfold get at 1. cbn [zshape zdata build].
    replace (offset [b; kv * n; s; d] [i; h; j; l])
      with (offset [b; kv; n; s; d] [i; h / n; h mod n; j; l]).
    2:{ unfold offset. cbn [zip_with fold_left fst snd].
        rewrite (Z.div_mod h n) at 3 by lia. ring. }
    rewrite list_lookup_fmap, indices_lookup.
    2:{ repeat constructor; lia. }
    cbn [fmap option_fmap option_map default].
    unfold bidx. cbn [length Nat.sub drop zip_with].
    rewrite (bidx_own b i), (bidx_own kv (h / n)), (bidx_own s j),
      (bidx_own d l), Z.eqb_refl by lia.
    unfold get, id. cbn [zshape zdata]. rewrite Hs. f_equal. f_equal. f_equal.
    unfold offset. cbn [zip_with fold_left fst snd]. ring.
Qed.

Lemma repeat_kv_interleaves_witness :
  zshape two_heads_q = [1; 2; 2; 1] /\
  exists r,
    repeat_kv two_heads_q 2 = Ok r /\
    zshape r = [1; 2 * 2; 2; 1] /\
    get r [0; 3; 1; 0] = get two_heads_q [0; 3 / 2; 1; 0].
Proof.
  assert (Hs : zshape two_heads_q = [1; 2; 2; 1]) by reflexivity.
  split; [exact Hs|].
  destruct (repeat_kv_interleaves two_heads_q 1 2 2 1 2 Hs)
    as (r & Hrep & Hshape & Hget); try lia.
  exists r. split; [exact Hrep|]. split; [exact Hshape|].
  apply (Hget 0 3 1 0); lia.
Defined.

Lemma apply_rotary_pos_emb_unfold `{Torch} (q k cos sin : Tensor)
    (position_ids : option Tensor) (unsqueeze_dim : Z) :
  apply_rotary_pos_emb q k cos sin position_ids unsqueeze_dim =
    (cos ← unsqueeze cos unsqueeze_dim;
     sin ← unsqueeze sin unsqueeze_dim;
     q_embed ← rotary_embed q cos sin;
     k_embed ← rotary_embed k cos sin;
     Ok (q_embed, k_embed)).
Proof.
  unfold apply_rotary_pos_emb, rotary_embed.
  destruct (unsqueeze cos unsqueeze_dim) as [cos'|]; [|reflexivity].
  destruct (unsqueeze sin unsqueeze_dim) as [sin'|]; [|reflexivity].
  cbn [mbind Result_bind].
  destruct (mul q cos'); [|reflexivity]. cbn [mbind Result_bind].
  destruct (rotate_half q) as [q_rot|]; [|reflexivity]. cbn [mbind Result_bind].
  destruct (mul q_rot sin'); [|reflexivity]. cbn [mbind Result_bind].
  destruct (add _ _); [|reflexivity]. cbn [mbind Result_bind].
  destruct (mul k cos'); [|reflexivity]. cbn [mbind Result_bind].
  destruct (rotate_half k) as [k_rot|]; [|reflexivity]. cbn [mbind Result_bind].
  destruct (mul k_rot sin'); [|reflexivity]. cbn [mbind Result_bind].
  reflexivity.
Qed.

Lemma broadcast_dims_same (s : list Z) : broadcast_dims s s = Ok s.
Proof.
  induction s as [|d s IH]; [reflexivity|].
  cbn [broadcast_dims]. rewrite IH. cbn [mbind Result_bind].
  now rewrite Z.eqb_refl.
Qed.

Lemma broadcast_dims_head (h : Z) (s : list Z) :
  broadcast_dims (h :: s) (1 :: s) = Ok (h :: s).
Proof.
  cbn [broadcast_dims]. rewrite broadcast_dims_same. cbn [mbind Result_bind].
  destruct (h =? 1) eqn:E; [reflexivity|]. reflexivity.
Qed.

Lemma pointwise_heads (f : Z -> Z -> Z) (x c : ZTensor) (b h s d : Z) :
  zshape x = [b; h; s; d] -> zshape c = [b; 1; s; d] ->
  pointwise f x c =
    Ok (build [b; h; s; d] (fun idx =>
          f (get x (bidx [b; h; s; d] idx)) (get c (bidx [b; 1; s; d] idx)))).
Proof.
  intros Hx Hc. unfold pointwise, broadcast_shapes. rewrite Hx, Hc.
  cbn [length Nat.max pad_left Nat.sub replicate app].
  assert (Hbd : broadcast_dims [b; h; s; d] [b; 1; s; d] = Ok [b; h; s; d]).
  { change (broadcast_dims [b; h; s; d] [b; 1; s; d])
      with (rest ← broadcast_dims (h :: [s; d]) (1 :: [s; d]);
            if b =? b then Ok (b :: rest)
            else if b =? 1 then Ok (b :: rest)
            else if b =? 1 then Ok (b :: rest)
            else Raise (RuntimeError "tensor sizes must match")).
    rewrite broadcast_dims_head. cbn [mbind Result_bind].
    now rewrite Z.eqb_refl. }
  now rewrite Hbd.
Qed.

Lemma pointwise_same (f : Z -> Z -> Z) (x y : ZTensor) (s : list Z) :
  zshape x = s -> zshape y = s ->
  pointwise f x y =
    Ok (build s (fun idx => f (get x (bidx s idx)) (get y (bidx s idx)))).
Proof.
  intros Hx Hy. unfold pointwise, broadcast_shapes. rewrite Hx, Hy.
  rewrite Nat.max_id. unfold pad_left. rewrite Nat.sub_diag. cbn [replicate app].
  now rewrite broadcast_dims_same.
Qed.

Lemma bidx_in_range (s idx : list Z) : in_range s idx -> bidx s idx = idx.
Proof.
  intros Hr. unfold bidx. rewrite (in_range_length _ _ Hr), Nat.sub_diag.
  rewrite drop_0. induction Hr as [|d i s idx Hi _ IH]; [reflexivity|].
  cbn [zip_with]. now rewrite IH, bidx_own.
Qed.

Lemma rotary_embed_entries (x c sn : ZTensor) (b h s d : Z) :
  zshape x = [b; h; s; d] -> zshape c = [b; 1; s; d] -> zshape sn = [b; 1; s; d] ->
  exists F,
    rotary_embed x c sn = Ok (build [b; h; s; d] F) /\
    forall i hh j l,
      0 <= i < b -> 0 <= hh < h -> 0 <= j < s -> 0 <= l < d ->
      F [i; hh; j; l] =
        get x [i; hh; j; l] * get c [i; 0; j; l]
        + (if l <? d - d / 2 then - get x [i; hh; j; l + d / 2]
           else get x [i; hh; j; l - (d - d / 2)])
          * get sn [i; 0; j; l].
Proof.
  intros Hx Hc Hsn. unfold rotary_embed. cbn [mul add torch].
  rewrite (pointwise_heads Z.mul x c b h s d Hx Hc). cbn [mbind Result_bind].
  destruct (rotate_half_eq x [b; h; s] d Hx) as (R & Hrot & HR).
  rewrite Hrot. cbn [mbind Result_bind app].
  rewrite (pointwise_heads Z.mul (build [b; h; s; d] R) sn b h s d eq_refl Hsn).
  cbn [mbind Result_bind].
  match goal with
  | |- context [pointwise Z.add (build ?sa ?fa) (build ?sb ?fb)] =>
      rewrite (pointwise_same Z.add (build sa fa) (build sb fb) [b; h; s; d]
                 eq_refl eq_refl)
  end.
  eexists. split; [reflexivity|].
  intros i hh j l Hi Hh Hj Hl. cbn beta.
  assert (Hr : in_range [b; h; s; d] [i; hh; j; l]) by (repeat constructor; lia).
  rewrite (bidx_in_range _ _ Hr), !get_build by exact Hr.
  rewrite (bidx_in_range _ _ Hr).
  assert (Hb1 : bidx [b; 1; s; d] [i; hh; j; l] = [i; 0; j; l]).
  { unfold bidx. cbn [length Nat.sub drop zip_with].
    now rewrite (bidx_own b i), (bidx_own s j), (bidx_own d l), Z.eqb_refl by lia. }
  rewrite Hb1, get_build by exact Hr.
  f_equal. f_equal.
  apply (HR [i; hh; j] l); [repeat constructor; lia | lia].
Qed.

Lemma get_unsqueezed (c : ZTensor) (b s d i j l : Z) :
  zshape c = [b; s; d] ->
  get (mkT [b; 1; s; d] (zdata c)) [i; 0; j; l] = get c [i; j; l].
Proof.
  intros Hc. unfold get. cbn [zshape zdata]. rewrite Hc.
  f_equal. f_equal. f_equal. unfold offset. cbn [zip_with fold_left fst snd]. ring.
Qed.


(** The two tensors [apply_rotary_pos_emb] builds. *)
Lemma apply_rotary_pos_emb_eq (q k cos sin : ZTensor)
    (position_ids : option Tensor) (b hq hk s d : Z) :
  zshape q = [b; hq; s; d] ->
  zshape k = [b; hk; s; d] ->
  zshape cos = [b; s; d] ->
  zshape sin = [b; s; d] ->
  exists Fq Fk,
    apply_rotary_pos_emb q k cos sin position_ids 1
      = Ok (build [b; hq; s; d] Fq, build [b; hk; s; d] Fk) /\
    forall i j l, 0 <= i < b -> 0 <= j < s -> 0 <= l < d ->
      (forall h, 0 <= h < hq ->
         Fq [i; h; j; l] =
           get q [i; h; j; l] * get cos [i; j; l]
           + (if l <? d - d / 2 then - get q [i; h; j; l + d / 2]
              else get q [i; h; j; l - (d - d / 2)])
             * get sin [i; j; l]) /\
      (forall h, 0 <= h < hk ->
         Fk [i; h; j; l] =
           get k [i; h; j; l] * get cos [i; j; l]
           + (if l <? d - d / 2 then - get k [i; h; j; l + d / 2]
              else get k [i; h; j; l - (d - d / 2)])
             * get sin [i; j; l]).
Proof.
  intros Hq Hk Hcos Hsin. rewrite apply_rotary_pos_emb_unfold.
  cbn [unsqueeze torch]. unfold z_unsqueeze, rank. rewrite Hcos, Hsin.
  change (wrap_dim (Z.of_nat (length [b; s; d]) + 1) 1) with (Ok (A:=nat) 1%nat).
  cbn [mbind Result_bind take drop app].
  destruct (rotary_embed_entries q (mkT [b; 1; s; d] (zdata cos))
              (mkT [b; 1; s; d] (zdata sin)) b hq s d Hq eq_refl eq_refl)
    as (Fq & Heq & HFq).
  destruct (rotary_embed_entries k (mkT [b; 1; s; d] (zdata cos))
              (mkT [b; 1; s; d] (zdata sin)) b hk s d Hk eq_refl eq_refl)
    as (Fk & Hek & HFk).
  rewrite Heq. cbn [mbind Result_bind]. rewrite Hek. cbn [mbind Result_bind].
  exists Fq, Fk. split; [reflexivity|].
  intros i j l Hi Hj Hl. split; intros h Hh.
  - rewrite (HFq i h j l) by lia.
    now rewrite !(get_unsqueezed _ b s d) by assumption.
  - rewrite (HFk i h j l) by lia.
    now rewrite !(get_unsqueezed _ b s d) by assumption.
Qed.

Section DtypeArithmetic.
Variables (fmul fadd : Z -> Z -> Z) (fneg : Z -> Z).
Variable linear : ZLinear -> ZTensor -> Result ZTensor.

Let dt : Torch := dtype_torch fmul fadd fneg linear.

Lemma get_fmap_build (g : Z -> Z) (s : list Z) (f : list Z -> Z) (idx : list Z) :
  in_range s idx ->
  get (mkT (zshape (build s f)) (g <$> zdata (build s f))) idx = g (f idx).
Proof.
  intros Hr. unfold get, build. cbn [zshape zdata].
  now rewrite !list_lookup_fmap, indices_lookup.
Qed.

Lemma rotate_half_dtype_eq (x : ZTensor) (s0 : list Z) (L : Z) :
  zshape x = s0 ++ [L] ->
  exists F,
    rotate_half (torch := dt) x = Ok (build (s0 ++ [L]) F) /\
    forall idx0 j, in_range s0 idx0 -> 0 <= j < L ->
      F (idx0 ++ [j]) =
        if j <? L - L / 2 then fneg (get x (idx0 ++ [j + L / 2]))
        else get x (idx0 ++ [j - (L - L / 2)]).
Proof.
  intros Hs. unfold rotate_half.
  cbn [shape neg slice_last_to slice_last_from cat_last dt dtype_torch].
  rewrite Hs. unfold py_last. rewrite last_snoc. cbn [mbind Result_bind].
  rewrite (z_slice_last_to_snoc x s0 L _ Hs). cbn [mbind Result_bind].
  rewrite (z_slice_last_from_snoc x s0 L _ Hs). cbn [mbind Result_bind].
  set (c := clamp L (L / 2)).
  erewrite (z_cat_last_snoc _ _ s0 (L - c) c); [|reflexivity..].
  replace (L - c + c) with L by lia.
  eexists. split; [reflexivity|].
  intros idx0 j Hr Hj. cbn beta zeta.
  rewrite last_dim_snoc, with_last_snoc.
  assert (Hc : c = L / 2).
  { unfold c, clamp. assert (0 <= L / 2 <= L).
    { split; [apply Z.div_pos; lia|]. apply Z.div_le_upper_bound; lia. }
    destruct (L / 2 <? 0) eqn:E; lia. }
  rewrite Hc. destruct (j <? L - L / 2) eqn:Ej.
  - apply Z.ltb_lt in Ej.
    rewrite get_fmap_build by (apply in_range_snoc; [assumption | lia]).
    now rewrite last_dim_snoc, with_last_snoc.
  - apply Z.ltb_ge in Ej.
    rewrite get_build by (apply in_range_snoc; [assumption | lia]).
    reflexivity.
Qed.

Lemma rotary_embed_dtype_entries (x c sn : ZTensor) (b h s d : Z) :
  zshape x = [b; h; s; d] -> zshape c = [b; 1; s; d] -> zshape sn = [b; 1; s; d] ->
  exists F,
    rotary_embed (H := dt) x c sn = Ok (build [b; h; s; d] F) /\
    forall i hh j l,
      0 <= i < b -> 0 <= hh < h -> 0 <= j < s -> 0 <= l < d ->
      F [i; hh; j; l] =
        fadd (fmul (get x [i; hh; j; l]) (get c [i; 0; j; l]))
             (fmul (if l <? d - d / 2 then fneg (get x [i; hh; j; l + d / 2])
                    else get x [i; hh; j; l - (d - d / 2)])
                   (get sn [i; 0; j; l])).
Proof.
  intros Hx Hc Hsn. unfold rotary_embed. cbn [mul add dt dtype_torch].
  rewrite (pointwise_heads fmul x c b h s d Hx Hc). cbn [mbind Result_bind].
  destruct (rotate_half_dtype_eq x [b; h; s] d Hx) as (R & Hrot & HR).
  fold dt. rewrite Hrot. cbn [mbind Result_bind app].
  rewrite (pointwise_heads fmul (build [b; h; s; d] R) sn b h s d eq_refl Hsn).
  cbn [mbind Result_bind].
  match goal with
  | |- context [pointwise fadd (build ?sa ?fa) (build ?sb ?fb)] =>
      rewrite (pointwise_same fadd (build sa fa) (build sb fb) [b; h; s; d]
                 eq_refl eq_refl)
  end.
  eexists. split; [reflexivity|].
  intros i hh j l Hi Hh Hj Hl. cbn beta.
  assert (Hr : in_range [b; h; s; d] [i; hh; j; l]) by (repeat constructor; lia).
  rewrite (bidx_in_range _ _ Hr), !get_build by exact Hr.
  rewrite (bidx_in_range _ _ Hr).
  assert (Hb1 : bidx [b; 1; s; d] [i; hh; j; l] = [i; 0; j; l]).
  { unfold bidx. cbn [length Nat.sub drop zip_with].
    now rewrite (bidx_own b i), (bidx_own s j), (bidx_own d l), Z.eqb_refl by lia. }
  rewrite Hb1, get_build by exact Hr.
  f_equal. f_equal.
  apply (HR [i; hh; j] l); [repeat constructor; lia | lia].
Qed.

(** X12. For query and key of shapes (b, hq, s, d) and (b, hk, s, d) and
    cos, sin of shape (b, s, d), [apply_rotary_pos_emb] returns tensors of
    the shapes of query and key, and in the arithmetic of the working
    dtype, whatever it rounds or wraps,
    [x_embed[i, h, j, l] = add (mul x[i, h, j, l] cos[i, j, l])
                               (mul rotate_half(x)[i, h, j, l] sin[i, j, l])];
    [position_ids] plays no part. *)
Theorem apply_rotary_pos_emb_entries (q k cos sin : ZTensor)
    (position_ids : option ZTensor) (b hq hk s d : Z) :
  zshape q = [b; hq; s; d] ->
  zshape k = [b; hk; s; d] ->
  zshape cos = [b; s; d] ->
  zshape sin = [b; s; d] ->
  exists q_embed k_embed,
    apply_rotary_pos_emb (torch := dt) q k cos sin position_ids 1
      = Ok (q_embed, k_embed) /\
    zshape q_embed = zshape q /\
    zshape k_embed = zshape k /\
    forall i j l, 0 <= i < b -> 0 <= j < s -> 0 <= l < d ->
      (forall h, 0 <= h < hq ->
         get q_embed [i; h; j; l] =
           fadd (fmul (get q [i; h; j; l]) (get cos [i; j; l]))
                (fmul (if l <? d - d / 2 then fneg (get q [i; h; j; l + d / 2])
                       else get q [i; h; j; l - (d - d / 2)])
                      (get sin [i; j; l]))) /\
      (forall h, 0 <= h < hk ->
         get k_embed [i; h; j; l] =
           fadd (fmul (get k [i; h; j; l]) (get cos [i; j; l]))
                (fmul (if l <? d - d / 2 then fneg (get k [i; h; j; l + d / 2])
                       else get k [i; h; j; l - (d - d / 2)])
                      (get sin [i; j; l]))).
Proof.
  intros Hq Hk Hcos Hsin. rewrite apply_rotary_pos_emb_unfold.
  cbn [unsqueeze dt dtype_torch]. unfold z_unsqueeze, rank. rewrite Hcos, Hsin.
  change (wrap_dim (Z.of_nat (length [b; s; d]) + 1) 1) with (Ok (A:=nat) 1%nat).
  cbn [mbind Result_bind take drop app].
  destruct (rotary_embed_dtype_entries q (mkT [b; 1; s; d] (zdata cos))
              (mkT [b; 1; s; d] (zdata sin)) b hq s d Hq eq_refl eq_refl)
    as (Fq & Heq & HFq).
  destruct (rotary_embed_dtype_entries k (mkT [b; 1; s; d] (zdata cos))
              (mkT [b; 1; s; d] (zdata sin)) b hk s d Hk eq_refl eq_refl)
    as (Fk & Hek & HFk).
  fold dt. rewrite Heq. cbn [mbind Result_bind]. rewrite Hek.
  cbn [mbind Result_bind].
  exists (build [b; hq; s; d] Fq), (build [b; hk; s; d] Fk).
  split; [reflexivity|]. split; [now rewrite Hq|]. split; [now rewrite Hk|].
  intros i j l Hi Hj Hl. split; intros h Hh.
  - rewrite get_build by (repeat constructor; lia).
    rewrite (HFq i h j l) by lia.
    now rewrite !(get_unsqueezed _ b s d) by assumption.
  - rewrite get_build by (repeat constructor; lia).
    rewrite (HFk i h j l) by lia.
    now rewrite !(get_unsqueezed _ b s d) by assumption.
Qed.

End DtypeArithmetic.

(** Two heads, two positions, non-zero sines, in arithmetic that rounds to
    eight significant bits: 17 * 17 is stored as 288. *)
Lemma apply_rotary_pos_emb_entries_witness :
  zshape rope_q = [1; 2; 2; 2] /\
  zshape rope_k = [1; 1; 2; 2] /\
  zshape rope_cos = [1; 2; 2] /\
  zshape rope_sin = [1; 2; 2] /\
  exists q_embed k_embed,
    apply_rotary_pos_emb
        (torch := dtype_torch round8_mul round8_add Z.opp z_linear)
        rope_q rope_k rope_cos rope_sin None 1
      = Ok (q_embed, k_embed) /\
    zshape q_embed = zshape rope_q /\
    zshape k_embed = zshape rope_k /\
    get q_embed [0; 0; 0; 0] = 288 /\
    get q_embed [0; 1; 1; 1] = 29 /\
    get k_embed [0; 0; 1; 0] = -8.
Proof.
  assert (Hq : zshape rope_q = [1; 2; 2; 2]) by reflexivity.
  assert (Hk : zshape rope_k = [1; 1; 2; 2]) by reflexivity.
  assert (Hc : zshape rope_cos = [1; 2; 2]) by reflexivity.
  assert (Hs : zshape rope_sin = [1; 2; 2]) by reflexivity.
  split; [exact Hq|]. split; [exact Hk|]. split; [exact Hc|]. split; [exact Hs|].
  destruct (apply_rotary_pos_emb_entries round8_mul round8_add Z.opp z_linear
              rope_q rope_k rope_cos rope_sin None 1 2 1 2 2 Hq Hk Hc Hs)
    as (q_embed & k_embed & Hrope & Hqs & Hks & Hent).
  exists q_embed, k_embed.
  split; [exact Hrope|]. split; [exact Hqs|]. split; [exact Hks|].
  split; [|split].
  - destruct (Hent 0 0 0) as [Hqe _]; try lia.
    rewrite (Hqe 0) by lia. reflexivity.
  - destruct (Hent 0 1 1) as [Hqe _]; try lia.
    rewrite (Hqe 1) by lia. reflexivity.
  - destruct (Hent 0 1 0) as [_ Hke]; try lia.
    rewrite (Hke 0) by lia. reflexivity.
Defined.

Lemma z_linear_shape (m : ZLinear) (t : ZTensor) (o i : Z) (s0 : list Z) :
  zshape (weight m) = [o; i] -> zshape t = s0 ++ [i] ->
  exists r, z_linear m t = Ok r /\ zshape r = s0 ++ [o].
Proof.
  intros Hw Ht. unfold z_linear. rewrite Hw.
  destruct (zshape t) as [|d s'] eqn:E; [now destruct s0|].
  rewrite Ht, last_dim_snoc, with_last_snoc, Z.eqb_refl.
  eexists. split; reflexivity.
Qed.

Lemma infer_size_heads (a b c hd n : Z) :
  0 < a -> 0 < b -> 0 < hd -> 0 <= c -> n = a * b * c * hd ->
  infer_size [a; b; -1; hd] n = Ok [a; b; c; hd].
Proof.
  intros Ha Hb Hhd Hc ->. unfold infer_size.
  rewrite bool_decide_eq_false_2.
  2:{ rewrite Exists_exists. intros (x & Hx & Hlt).
      repeat (apply elem_of_cons in Hx as [->|Hx]; [lia|]).
      now apply elem_of_nil in Hx. }
  assert (Hf1 : filter (fun d => d <> -1) [a; b; -1; hd] = [a; b; hd]).
  { rewrite !filter_cons, filter_nil.
    repeat case_decide; first [lia | reflexivity | contradiction]. }
  assert (Hf2 : filter (fun d => d = -1) [a; b; -1; hd] = [-1]).
  { rewrite !filter_cons, filter_nil.
    repeat case_decide; first [lia | reflexivity | contradiction]. }
  rewrite Hf1, Hf2.
  cbn [length]. unfold numel. cbn [foldr].
  replace (a * b * c * hd) with (c * (a * (b * (hd * 1)))) by ring.
  assert (Hk : a * (b * (hd * 1)) <> 0) by nia.
  rewrite Z.mod_mul, Z.div_mul by exact Hk.
  destruct (a * (b * (hd * 1)) =? 0) eqn:E; [lia|].
  cbn [orb negb Z.eqb fmap list_fmap].
  destruct (a =? -1) eqn:Ea; [lia|]. destruct (b =? -1) eqn:Eb; [lia|].
  destruct (hd =? -1) eqn:Eh; [lia|]. reflexivity.
Qed.

Lemma z_view_heads (t : ZTensor) (a b c hd : Z) :
  numel (zshape t) = a * b * c * hd ->
  0 < a -> 0 < b -> 0 < hd -> 0 <= c ->
  exists r, z_view t [a; b; -1; hd] = Ok r /\ zshape r = [a; b; c; hd].
Proof.
  intros Hn Ha Hb Hhd Hc. unfold z_view.
  rewrite (infer_size_heads a b c hd) by assumption.
  cbn [mbind Result_bind]. eexists. split; reflexivity.
Qed.

Lemma z_transpose_12 (t : ZTensor) (a b c d : Z) :
  zshape t = [a; b; c; d] ->
  exists r, z_transpose t 1 2 = Ok r /\ zshape r = [a; c; b; d].
Proof.
  intros Ht. unfold z_transpose, rank. rewrite Ht.
  change (wrap_dim (Z.of_nat (length [a; b; c; d])) 1) with (Ok (A:=nat) 1%nat).
  change (wrap_dim (Z.of_nat (length [a; b; c; d])) 2) with (Ok (A:=nat) 2%nat).
  cbn [mbind Result_bind]. eexists. split; reflexivity.
Qed.


(** X13. End to end: for a layer whose projections have the widths of
    [heads] query heads and [kv_heads] key-value heads of size [head_dim],
    with [heads = kv_heads * num_key_value_groups], and for hidden states of
    shape (bsz, q_len, hidden) with rotary tables of shape
    (bsz, q_len, head_dim), a call without cache passes every reshape,
    the rotary embedding, [repeat_kv] and the shape asserts of
    [attention_forward], and then raises the unbound-name error for [v]. *)
Theorem custom_attention_forward_raises_name_error
    {kvcache : KVCache} (g : gmap string PyObj) (self : LlamaAttention)
    (hidden_states cos sin : ZTensor)
    (attention_mask position_ids : option ZTensor)
    (output_attentions use_cache : bool)
    (cache_position : option ZTensor)
    (kwargs : gmap string PyObj)
    (bsz q_len hidden heads kv_heads : Z) :
  g !! "v" = None ->
  zshape hidden_states = [bsz; q_len; hidden] ->
  0 < bsz -> 0 < q_len -> 0 < head_dim self ->
  0 <= kv_heads -> 1 <= num_key_value_groups self ->
  heads = kv_heads * num_key_value_groups self ->
  zshape (weight (q_proj self)) = [heads * head_dim self; hidden] ->
  zshape (weight (k_proj self)) = [kv_heads * head_dim self; hidden] ->
  zshape (weight (v_proj self)) = [kv_heads * head_dim self; hidden] ->
  zshape cos = [bsz; q_len; head_dim self] ->
  zshape sin = [bsz; q_len; head_dim self] ->
  custom_attention_forward g self hidden_states attention_mask position_ids
      None output_attentions use_cache cache_position (Some (cos, sin)) kwargs
    = Raise (NameError "v").
Proof.
  intros Hv Hhs Hbsz Hql Hhd Hkv Hgr Hheads Hwq Hwk Hwv Hcos Hsin.
  assert (Hh0 : 0 <= heads) by (rewrite Hheads; apply Z.mul_nonneg_nonneg; lia).
  unfold custom_attention_forward.
  cbn [shape call_module view transpose torch]. rewrite Hhs.
  set (hd := head_dim self) in *. set (G := num_key_value_groups self) in *.
  cbn [unpack3 mbind Result_bind].
  destruct (z_linear_shape (q_proj self) hidden_states _ _ [bsz; q_len] Hwq Hhs)
    as (q0 & -> & Hq0).
  destruct (z_linear_shape (k_proj self) hidden_states _ _ [bsz; q_len] Hwk Hhs)
    as (k0 & -> & Hk0).
  destruct (z_linear_shape (v_proj self) hidden_states _ _ [bsz; q_len] Hwv Hhs)
    as (v0 & -> & Hv0).
  cbn [mbind Result_bind].
  destruct (z_view_heads q0 bsz q_len heads hd) as (q1 & -> & Hq1);
    try lia; [rewrite Hq0; unfold numel; cbn [app foldr]; ring|].
  cbn [mbind Result_bind].
  destruct (z_transpose_12 q1 _ _ _ _ Hq1) as (q2 & -> & Hq2).
  cbn [mbind Result_bind].
  destruct (z_view_heads k0 bsz q_len kv_heads hd) as (k1 & -> & Hk1);
    try lia; [rewrite Hk0; unfold numel; cbn [app foldr]; ring|].
  cbn [mbind Result_bind].
  destruct (z_transpose_12 k1 _ _ _ _ Hk1) as (k2 & -> & Hk2).
  cbn [mbind Result_bind].
  destruct (z_view_heads v0 bsz q_len kv_heads hd) as (v1 & -> & Hv1);
    try lia; [rewrite Hv0; unfold numel; cbn [app foldr]; ring|].
  cbn [mbind Result_bind].
  destruct (z_transpose_12 v1 _ _ _ _ Hv1) as (v2 & -> & Hv2).
  cbn [mbind Result_bind].
  destruct (apply_rotary_pos_emb_eq q2 k2 cos sin None
              bsz heads kv_heads q_len hd Hq2 Hk2 Hcos Hsin)
    as (Fq & Fk & -> & _).
  cbn [mbind Result_bind].
  destruct (repeat_kv_shape (build [bsz; kv_heads; q_len; hd] Fk)
              bsz kv_heads q_len hd G eq_refl)
    as (k4 & -> & Hk4); try lia.
  cbn [mbind Result_bind].
  destruct (repeat_kv_shape v2 bsz kv_heads q_len hd G Hv2)
    as (v4 & -> & Hv4); try lia.
  cbn [mbind Result_bind].
  assert (Hq3 : zshape (build [bsz; heads; q_len; hd] Fq)
                = [bsz; heads; q_len; hd]) by reflexivity.
  set (q3 := build [bsz; heads; q_len; hd] Fq) in *.
  destruct (z_transpose_12 q3 _ _ _ _ Hq3) as (q5 & -> & Hq5).
  cbn [mbind Result_bind].
  destruct (z_transpose_12 k4 _ _ _ _ Hk4) as (k5 & -> & Hk5).
  cbn [mbind Result_bind].
  destruct (z_transpose_12 v4 _ _ _ _ Hv4) as (v5 & -> & Hv5).
  cbn [mbind Result_bind].
  rewrite Hheads in Hq5.
  rewrite (attention_forward_after_checks g q5 k5 v5 (o_proj self)
             bsz q_len q_len (kv_heads * G) hd Hq5 Hk5);
    [|cbn [shape torch]; now rewrite Hv5, Hk5 | lia].
  now rewrite (load_global_unbound g "v" Hv).
Qed.

Lemma custom_attention_forward_raises_name_error_witness :
  notebook_globals !! "v" = None /\
  custom_attention_forward notebook_globals layer one_token None None
      None false false None (Some (cos_0, sin_0)) ∅
    = Raise (NameError "v").
Proof.
  assert (Hv : notebook_globals !! "v" = None) by (vm_compute; reflexivity).
  split; [exact Hv|].
  apply (custom_attention_forward_raises_name_error (kvcache := fixed_kvcache)
           notebook_globals layer one_token cos_0 sin_0 None None false false
           None ∅ 1 1 2 1 1 Hv);
    first [reflexivity | lia].
Defined.



